(** * The per-request pipeline of [async_http.app.AsyncHTTPServer]

    A shallow embedding of [src/async_http/app.py]: the two middleware
    chain runners, the handler dispatch, the error recovery cascade, the
    cancellation gate and the output routing of [handle_request].

    Python objects are values of an inductive type.  The callables the
    pipeline is given (middleware, router, handlers, the error handler)
    are functions of their arguments that return an [outcome]: a value,
    which may be an awaitable carrying what awaiting it gives, or an
    exception.  A cancellation that arrives at a suspension point is an
    awaitable, or a call, that ends in a [CancelledError].

    The coroutine is a function from the frame of its local variables to
    a [Run]: the calls it made in order, the frame it left and how it
    ended.  [try], [except] and [finally] are combinators on such
    functions, and every piece of [handle_request] is written with them
    in the order of the source. *)

From Stdlib Require Import ZArith String List Bool Lia.
From stdpp Require Import base gmap strings list.

Open Scope string_scope.
Open Scope Z_scope.
Open Scope list_scope.

(** ** Exceptions *)

(** The exception classes the pipeline tells apart.  [OtherException] is
    any other class below [Exception] ([TypeError], [AttributeError], an
    application error, ...); [OtherBaseException] is a class below
    [BaseException] only ([KeyboardInterrupt], [SystemExit],
    [GeneratorExit]). *)
Inductive exc_class :=
| CancelledError
| ServerError
| AsyncHTTPException
| OtherException
| OtherBaseException.

(** An exception instance: its class and [str(e)]. *)
Record exn := mkExn { exc_type : exc_class; exc_str : string }.

(** What the module takes from the interpreter and from [exceptions.py],
    which are not determined by [app.py] itself:
    - [asyncio.CancelledError] derives from [Exception] up to Python 3.7
      and directly from [BaseException] from Python 3.8 on;
    - [ServerError] is imported next to [AsyncHTTPException]; whether it
      derives from it is decided in [exceptions.py];
    - [traceback.format_exc()] renders the exception being handled. *)
Record Runtime := {
  cancelled_is_Exception : bool;
  server_error_is_AsyncHTTPException : bool;
  format_exc : exn -> string
}.

(** How a call, or the resolution of an awaitable, ends. *)
Inductive outcome (A : Type) :=
| Returns (a : A)
| Raises (e : exn).
Arguments Returns {A} a.
Arguments Raises {A} e.

(** ** Responses and other values *)

(** A keyword argument of a constructor call: left out or passed. *)
Inductive kwarg (A : Type) :=
| Omitted
| Passed (a : A).
Arguments Omitted {A}.
Arguments Passed {A} a.

(** Modelled from the spec: the Buffered response class of [response.py]
    (body bytes, status code, header mapping, content-type), kept as the
    arguments [app.py] passes to its constructor. *)
Record HTTPResponse := mkHTTPResponse {
  body : string;
  status : Z;
  headers : kwarg (gmap string string);
  content_type : kwarg (option string)
}.

(** The objects that flow through the pipeline.  [VResult] is the object
    a suspended handler resolves to, with [body()], [status()] and
    [context().GetResponseHeaders()]; [VObject] is any other object, with
    its truth value; [VAwaitable] carries what awaiting it gives. *)
#[warnings="-register-all"]
Inductive value :=
| VNone
| VHTTPResponse (r : HTTPResponse)
| VStreamingHTTPResponse (sid : nat)
| VResult (b : string) (s : Z) (h : gmap string string)
| VObject (truth : bool) (oid : nat)
| VAwaitable (o : outcome value).

(** [bool(v)], as [if response:] takes it. *)
Definition truthy (v : value) : bool :=
  match v with
  | VNone => false
  | VObject truth _ => truth
  | _ => true
  end.

(** [v is not None] *)
Definition is_not_None (v : value) : bool :=
  match v with
  | VNone => false
  | _ => true
  end.

(** [inspect.isawaitable(v)] *)
Definition isawaitable (v : value) : bool :=
  match v with
  | VAwaitable _ => true
  | _ => false
  end.

(** [isinstance(v, StreamingHTTPResponse)] *)
Definition isinstance_StreamingHTTPResponse (v : value) : bool :=
  match v with
  | VStreamingHTTPResponse _ => true
  | _ => false
  end.

(** ** The request and the collaborators *)

(** The attributes of the request that [handle_request] assigns, next to
    an identity that stands for what the transport filled in. *)
Record Request := mkRequest {
  req_id : nat;
  req_app : option string;
  uri_template : option string;
  endpoint : option string
}.

(** The three assignments [handle_request] makes on the request. *)
Definition assign_app (app : string) (r : Request) : Request :=
  mkRequest (req_id r) (Some app) (uri_template r) (endpoint r).

Definition assign_uri_template (uri : string) (r : Request) : Request :=
  mkRequest (req_id r) (req_app r) (Some uri) (endpoint r).

Definition assign_endpoint (ep : string) (r : Request) : Request :=
  mkRequest (req_id r) (req_app r) (uri_template r) (Some ep).

Record RequestMiddleware := {
  rq_id : nat;
  rq_call : Request -> outcome value
}.

Record ResponseMiddleware := {
  rs_id : nat;
  rs_call : Request -> value -> outcome value
}.

(** A route handler: [__name__], the optional [__blueprintname__], and
    the call [handler(request, *args, **kwargs)]. *)
Record Handler := {
  h_name : string;
  h_blueprintname : option string;
  h_call : Request -> list value -> list (string * value) -> outcome value
}.

(** [router.get(request)] gives [(handler, args, kwargs, uri)]. *)
Definition Route : Type :=
  option Handler * list value * list (string * value) * string.

(** Modelled from the spec: the [ErrorHandler] of [error_handler.py];
    [response] maps an exception to a response, possibly by awaiting, and
    may fail; [default] is the producer that must not itself fail. *)
Record ErrorHandler := {
  eh_response : Request -> exn -> outcome value;
  eh_default : Request -> exn -> value
}.

(** The attributes of the server that the pipeline reads. *)
Record AsyncHTTPServer := {
  name : string;
  router : option (Request -> outcome Route);
  error_handler : ErrorHandler;
  request_middleware : list RequestMiddleware;
  response_middleware : list ResponseMiddleware;
  debug : bool
}.

(** ** Runs *)

(** What a run does that can be seen from outside, in the order it
    happens. *)
Inductive event :=
| CallRequestMiddleware (id : nat)
| CallResponseMiddleware (id : nat) (response : value)
| CallRouterGet
| CallHandler (hname : string)
| CallErrorResponse (e : exn)
| CallErrorDefault (e : exn)
| LogInfo (msg : string)
| LogError (msg : string)
| CallWrite (response : value)
| CallStream (response : value).

(** The local variables of [handle_request]. *)
Record Frame := mkFrame {
  request : Request;
  response : value;
  cancelled : bool
}.

Record Run (A : Type) := mkRun {
  trace : list event;
  frame : Frame;
  result : outcome A
}.
Arguments mkRun {A} trace frame result.
Arguments trace {A} r.
Arguments frame {A} r.
Arguments result {A} r.

(** A piece of the coroutine. *)
Definition M (A : Type) : Type := Frame -> Run A.

Definition ret {A} (a : A) : M A :=
  fun f => mkRun [] f (Returns a).

Definition raise {A} (e : exn) : M A :=
  fun f => mkRun [] f (Raises e).

Definition bind {A B} (m : M A) (k : A -> M B) : M B :=
  fun f =>
    let r := m f in
    match result r with
    | Returns a =>
        let r' := k a (frame r) in
        mkRun (trace r ++ trace r') (frame r') (result r')
    | Raises e => mkRun (trace r) (frame r) (Raises e)
    end.

Declare Scope pipeline_scope.
Delimit Scope pipeline_scope with pipeline.
Notation "x <- m ;; k" := (bind m (fun x => k))
  (at level 100, m at next level, right associativity) : pipeline_scope.
Notation "m ;; k" := (bind m (fun _ => k))
  (at level 100, right associativity) : pipeline_scope.
Open Scope pipeline_scope.

(** [try: m  except ... as e: h e]; [h] re-raises what no clause takes. *)
Definition try_except {A} (m : M A) (h : exn -> M A) : M A :=
  fun f =>
    let r := m f in
    match result r with
    | Returns _ => r
    | Raises e =>
        let r' := h e (frame r) in
        mkRun (trace r ++ trace r') (frame r') (result r')
    end.

(** [try: m  finally: fin]: [fin] always runs; what it raises replaces
    the exception in flight, otherwise [m]'s ending stands. *)
Definition try_finally {A} (m : M A) (fin : M unit) : M A :=
  fun f =>
    let r := m f in
    let r' := fin (frame r) in
    mkRun (trace r ++ trace r') (frame r')
      match result r' with
      | Returns _ => result r
      | Raises e => Raises e
      end.

Definition emit (ev : event) : M unit :=
  fun f => mkRun [ev] f (Returns tt).

(** A call of a collaborator: recorded, then it returns or raises. *)
Definition call {A} (ev : event) (o : Frame -> outcome A) : M A :=
  fun f => mkRun [ev] f (o f).

Definition get_response : M value :=
  fun f => mkRun [] f (Returns (response f)).

Definition get_cancelled : M bool :=
  fun f => mkRun [] f (Returns (cancelled f)).

Definition set_response (v : value) : M unit :=
  fun f => mkRun [] (mkFrame (request f) v (cancelled f)) (Returns tt).

Definition set_cancelled (b : bool) : M unit :=
  fun f => mkRun [] (mkFrame (request f) (response f) b) (Returns tt).

Definition set_request (upd : Request -> Request) : M unit :=
  fun f => mkRun [] (mkFrame (upd (request f)) (response f) (cancelled f))
                 (Returns tt).

(** [await v], for an awaitable [v]. *)
Definition await (v : value) : M value :=
  match v with
  | VAwaitable (Returns a) => ret a
  | VAwaitable (Raises e) => raise e
  | _ => raise (mkExn OtherException "object can't be used in 'await' expression")
  end.

(** [if isawaitable(v): v = await v] *)
Definition resolve (v : value) : M value :=
  if isawaitable v then await v else ret v.

(** The callbacks that are invoked in a trace, in order. *)
Definition is_callback (ev : event) : bool :=
  match ev with
  | CallWrite _ | CallStream _ => true
  | _ => false
  end.

Definition callbacks (tr : list event) : list event :=
  List.filter is_callback tr.

(** The calls that belong to the handler dispatch. *)
Definition is_dispatch (ev : event) : bool :=
  match ev with
  | CallRouterGet | CallHandler _ => true
  | _ => false
  end.

Definition is_response_middleware (ev : event) : bool :=
  match ev with
  | CallResponseMiddleware _ _ => true
  | _ => false
  end.

Section Pipeline.

Variable py : Runtime.

(** ** Class tests *)

Definition isinstance_CancelledError (e : exn) : bool :=
  match exc_type e with
  | CancelledError => true
  | _ => false
  end.

Definition isinstance_Exception (e : exn) : bool :=
  match exc_type e with
  | CancelledError => cancelled_is_Exception py
  | ServerError | AsyncHTTPException | OtherException => true
  | OtherBaseException => false
  end.

Definition isinstance_AsyncHTTPException (e : exn) : bool :=
  match exc_type e with
  | AsyncHTTPException => true
  | ServerError => server_error_is_AsyncHTTPException py
  | _ => false
  end.

Variable self : AsyncHTTPServer.

(** ** [_run_request_middleware] *)

Definition call_request_middleware (mw : RequestMiddleware) : M value :=
  call (CallRequestMiddleware (rq_id mw)) (fun f => rq_call mw (request f)).

Fixpoint request_middleware_loop (mws : list RequestMiddleware) : M value :=
  match mws with
  | [] => ret VNone
  | middleware :: rest =>
      response <- call_request_middleware middleware ;;
      response <- resolve response ;;
      if truthy response then ret response
      else request_middleware_loop rest
  end.

Definition _run_request_middleware : M value :=
  match request_middleware self with
  | [] => ret VNone
  | mws => request_middleware_loop mws
  end.

(** ** [_run_response_middleware] *)

Definition call_response_middleware (mw : ResponseMiddleware)
    (response : value) : M value :=
  call (CallResponseMiddleware (rs_id mw) response)
       (fun f => rs_call mw (request f) response).

Fixpoint response_middleware_loop (mws : list ResponseMiddleware)
    (response : value) : M value :=
  match mws with
  | [] => ret response
  | middleware :: rest =>
      _response <- call_response_middleware middleware response ;;
      _response <- resolve _response ;;
      if truthy _response then ret _response
      else response_middleware_loop rest response
  end.

Definition _run_response_middleware (response : value) : M value :=
  match response_middleware self with
  | [] => ret response
  | mws => response_middleware_loop mws response
  end.

(** ** [_build_endpoint_name] *)

Definition _build_endpoint_name (parts : list string) : string :=
  String.concat "." (name self :: parts).

(** ** [handle_request] *)

(** [self.router.get(request)]; the router attribute defaults to
    [None], on which the attribute lookup fails. *)
Definition router_get : M Route :=
  match router self with
  | None =>
      raise (mkExn OtherException "'NoneType' object has no attribute 'get'")
  | Some get => call CallRouterGet (fun f => get (request f))
  end.

Definition server_error : exn :=
  mkExn ServerError
    "'None' was returned while requesting a handler from the router".

Definition endpoint_of (handler : Handler) : string :=
  match h_blueprintname handler with
  | None | Some "" => _build_endpoint_name [h_name handler]
  | Some bp => _build_endpoint_name [bp; h_name handler]
  end.

Definition call_handler (handler : Handler) (args : list value)
    (kwargs : list (string * value)) : M value :=
  call (CallHandler (h_name handler))
       (fun f => h_call handler (request f) args kwargs).

(** [res.body()], [res.context().GetResponseHeaders()], [res.status()]
    and the [HTTPResponse] built from them; an object without these
    accessors fails the first lookup. *)
Definition rebuild (res : value) : M value :=
  match res with
  | VResult b s h =>
      ret (VHTTPResponse
             (mkHTTPResponse b s (Passed h) (Passed (h !! "Content-Type"))))
  | _ => raise (mkExn OtherException "object has no attribute 'body'")
  end.

(** "Run response handler" (lines 135-146): the handler is called and
    a suspended result is awaited and rebuilt. *)
Definition run_handler (handler : Handler) (args : list value)
    (kwargs : list (string * value)) : M unit :=
  r <- call_handler handler args kwargs ;;
  set_response r ;;
  if isawaitable r then
    emit (LogInfo "got response from function") ;;
    res <- await r ;;
    r <- rebuild res ;;
    set_response r
  else ret tt.

(** The body of [if not response:] (lines 113-146): the handler is
    fetched from the router, named and run. *)
Definition dispatch : M unit :=
  route <- router_get ;;
  let '(handler, args, kwargs, uri) := route in
  set_request (assign_uri_template uri) ;;
  handler <- match handler with
             | None => raise server_error
             | Some handler =>
                 set_request (assign_endpoint (endpoint_of handler)) ;;
                 ret handler
             end ;;
  run_handler handler args kwargs.

(** The body of the outer [try] (lines 104-146). *)
Definition attempt : M unit :=
  set_request (assign_app (name self)) ;;
  r <- _run_request_middleware ;;
  set_response r ;;
  if negb (truthy r) then dispatch else ret tt.

Definition call_error_response (e : exn) : M value :=
  call (CallErrorResponse e)
       (fun f => eh_response (error_handler self) (request f) e).

Definition call_error_default (e : exn) : M value :=
  call (CallErrorDefault e)
       (fun f => Returns (eh_default (error_handler self) (request f) e)).

Definition debug_body (e : exn) : string :=
  "Error while handling error: " +:+ exc_str e +:+
  String (Ascii.ascii_of_nat 10) "Stack: " +:+ format_exc py e.

Definition opaque_body : string :=
  "An error occurred while handling an error".

(** [HTTPResponse(text, status=500)] *)
Definition response_500 (text : string) : value :=
  VHTTPResponse (mkHTTPResponse text 500 Omitted Omitted).

(** The clause [except Exception as e] of the outer [try]
    (lines 158-178), with its inner [try]. *)
Definition recover (e : exn) : M unit :=
  emit (LogError "Exception: ") ;;
  try_except
    (r <- call_error_response e ;;
     set_response r ;;
     if isawaitable r then
       r <- await r ;;
       set_response r
     else ret tt)
    (fun e =>
       if isinstance_Exception e then
         if isinstance_AsyncHTTPException e then
           r <- call_error_default e ;;
           set_response r
         else if debug self then
           set_response (response_500 (debug_body e))
         else
           set_response (response_500 opaque_body)
       else raise e).

(** The outer [try] with its two [except] clauses, in their order. *)
Definition guarded : M unit :=
  try_except attempt
    (fun e =>
       if isinstance_CancelledError e then
         set_response VNone ;;
         set_cancelled true
       else if isinstance_Exception e then recover e
       else raise e).

(** [CancelledError()], as line 199 raises it. *)
Definition cancellation : exn := mkExn CancelledError "".

(** The [finally] clause (lines 184-199). *)
Definition finalizer : M unit :=
  r <- get_response ;;
  (if is_not_None r then
     try_except
       (r <- _run_response_middleware r ;;
        set_response r)
       (fun e =>
          if isinstance_CancelledError e then
            set_response VNone ;;
            set_cancelled true
          else
            emit (LogError
              "Exception occurred in one of response middleware handlers"))
   else ret tt) ;;
  c <- get_cancelled ;;
  if c then raise cancellation else ret tt.

(** Lines 97-199: the locals and the [try] statement. *)
Definition pipeline : M unit :=
  set_response VNone ;;
  set_cancelled false ;;
  try_finally guarded finalizer.

(** Lines 202-205: the response goes to the stream callback, which is
    awaited, when it is a [StreamingHTTPResponse], and to the write
    callback otherwise.  What the callback does is its own; its call is
    recorded and its ending is the coroutine's. *)
Definition output (write_callback stream_callback : value -> outcome unit)
    : M unit :=
  r <- get_response ;;
  if isinstance_StreamingHTTPResponse r then
    call (CallStream r) (fun _ => stream_callback r)
  else
    call (CallWrite r) (fun _ => write_callback r).

Definition handle_request_from
    (write_callback stream_callback : value -> outcome unit) : M unit :=
  pipeline ;;
  output write_callback stream_callback.

(** The frame the transport's request enters with. *)
Definition entry (req : Request) : Frame := mkFrame req VNone false.

Definition handle_request (req : Request)
    (write_callback stream_callback : value -> outcome unit) : Run unit :=
  handle_request_from write_callback stream_callback (entry req).

End Pipeline.

(** ** Reading a run *)

(** What a middleware's call comes to once its result is resolved: the
    awaited value when it returned an awaitable, its own ending
    otherwise. *)
Definition resolved (o : outcome value) : outcome value :=
  match o with
  | Returns (VAwaitable o') => o'
  | _ => o
  end.

(** The middleware returned, or resolved to, a value that is not truthy,
    so the chain goes on. *)
Definition passes (o : outcome value) : bool :=
  match resolved o with
  | Returns v => negb (truthy v)
  | Raises _ => false
  end.

(** The run [r] after the calls [tr]. *)
Definition prepend {A} (tr : list event) (r : Run A) : Run A :=
  mkRun (tr ++ trace r) (frame r) (result r).

Definition request_calls (mws : list RequestMiddleware) : list event :=
  map (fun mw => CallRequestMiddleware (rq_id mw)) mws.

Definition response_calls (mws : list ResponseMiddleware) (v : value)
    : list event :=
  map (fun mw => CallResponseMiddleware (rs_id mw) v) mws.

Definition is_request_middleware (ev : event) : bool :=
  match ev with
  | CallRequestMiddleware _ => true
  | _ => false
  end.

(** The callback the output routing picks for a response, and how the
    call ends. *)
Definition callback_for (v : value) : event :=
  if isinstance_StreamingHTTPResponse v then CallStream v else CallWrite v.

Definition callback_result
    (write_callback stream_callback : value -> outcome unit) (v : value)
    : outcome unit :=
  if isinstance_StreamingHTTPResponse v then stream_callback v
  else write_callback v.

(** The frame in which the request middleware and the router see the
    request: the server is assigned, no response yet. *)
Definition entered (self : AsyncHTTPServer) (req : Request) : Frame :=
  mkFrame (assign_app (name self) req) VNone false.

(** The frame in which the handler sees the request. *)
Definition routed (self : AsyncHTTPServer) (h : Handler) (uri : string)
    (f : Frame) : Frame :=
  mkFrame (assign_endpoint (endpoint_of self h)
             (assign_uri_template uri (request f)))
          (response f) (cancelled f).

Definition middleware_failure : event :=
  LogError "Exception occurred in one of response middleware handlers".

(** The [response] local after the primary mapping failed: the awaitable
    it returned, when the failure came from awaiting it. *)
Definition stale_response (o : outcome value) (v : value) : value :=
  match o with
  | Returns (VAwaitable a) => VAwaitable a
  | _ => v
  end.

(** The response of the secondary recovery for an exception [e]. *)
Definition secondary_response (py : Runtime) (self : AsyncHTTPServer)
    (rq : Request) (e : exn) : value :=
  if isinstance_AsyncHTTPException py e then eh_default (error_handler self) rq e
  else if debug self then response_500 (debug_body py e)
  else response_500 opaque_body.

Definition secondary_calls (py : Runtime) (e : exn) : list event :=
  if isinstance_AsyncHTTPException py e then [CallErrorDefault e] else [].

(** ** Properties of the pieces *)

(** Every event of every run of [m] satisfies [P]. *)
Definition emits_only {A} (P : event -> bool) (m : M A) : Prop :=
  forall f, Forall (fun ev => P ev = true) (trace (m f)).

(** [m] raises nothing but cancellations and signals that are not
    below [Exception]. *)
Definition raises_only_signals (py : Runtime) {A} (m : M A) : Prop :=
  forall f e, result (m f) = Raises e ->
    isinstance_CancelledError e = true \/ isinstance_Exception py e = false.

(** [m] leaves the [cancelled] flag as it found it. *)
Definition keeps_cancelled {A} (m : M A) : Prop :=
  forall f, cancelled (frame (m f)) = cancelled f.

Definition not_callback (ev : event) : bool := negb (is_callback ev).

(** After the request middleware: neither they nor the dispatch. *)
Definition past_dispatch (ev : event) : bool :=
  negb (is_request_middleware ev) && negb (is_dispatch ev).

(** ** The outcomes of [handle_request] *)

(** Exactly one of three. *)
Definition exactly_one (A B C : Prop) : Prop :=
  (A /\ ~ B /\ ~ C) \/ (~ A /\ B /\ ~ C) \/ (~ A /\ ~ B /\ C).

(** The [try] statement was left normally and the callback for the
    response local was invoked, once; the coroutine ends as the callback
    does. *)
Definition ends_with_callback
    (write_callback stream_callback : value -> outcome unit)
    (p r : Run unit) : Prop :=
  result p = Returns tt /\
  callbacks (trace r) = [callback_for (response (frame p))] /\
  result r = callback_result write_callback stream_callback
               (response (frame p)).

(** The [try] statement raised a cancellation, which reaches the caller,
    and no callback was invoked. *)
Definition ends_cancelled (p r : Run unit) : Prop :=
  exists e, result p = Raises e /\ isinstance_CancelledError e = true /\
            callbacks (trace r) = [] /\ result r = Raises e.

(** The [try] statement raised another signal that is not below
    [Exception], which reaches the caller, and no callback was invoked. *)
Definition ends_with_signal (py : Runtime) (p r : Run unit) : Prop :=
  exists e, result p = Raises e /\ isinstance_CancelledError e = false /\
            isinstance_Exception py e = false /\
            callbacks (trace r) = [] /\ result r = Raises e.

(** The claims' own outcomes, read on a run alone: a callback was
    invoked once with a response, which [None] is not; a cancellation
    reached the caller. *)
Definition response_delivered (r : Run unit) : Prop :=
  exists v, is_not_None v = true /\ callbacks (trace r) = [callback_for v].

Definition cancellation_raised (r : Run unit) : Prop :=
  exists e, result r = Raises e /\ isinstance_CancelledError e = true.

Definition cancelled_silently (r : Run unit) : Prop :=
  cancellation_raised r /\ callbacks (trace r) = [].

Definition one_of_two_outcomes (r : Run unit) : Prop :=
  (response_delivered r /\ ~ cancelled_silently r) \/
  (cancelled_silently r /\ ~ response_delivered r).

(** What the recovery cascade makes of a fault whose primary mapping
    ended as [o], and the call it adds: the mapping's value; or, when the
    mapping raised an exception that is not a cancellation, the secondary
    response. *)
Definition cascade_gives (py : Runtime) (self : AsyncHTTPServer)
    (rq : Request) (o : outcome value) (v : value) (calls : list event)
    : Prop :=
  (o = Returns v /\ calls = []) \/
  (exists e2,
     o = Raises e2 /\
     isinstance_Exception py e2 = true /\
     isinstance_CancelledError e2 = false /\
     v = (if isinstance_AsyncHTTPException py e2
          then eh_default (error_handler self) rq e2
          else if debug self
               then VHTTPResponse
                      (mkHTTPResponse (debug_body py e2) 500 Omitted Omitted)
               else VHTTPResponse
                      (mkHTTPResponse opaque_body 500 Omitted Omitted)) /\
     calls = (if isinstance_AsyncHTTPException py e2
              then [CallErrorDefault e2] else [])).

(** ** Inputs to run the pipeline on *)

Definition python37 : Runtime := {|
  cancelled_is_Exception := true;
  server_error_is_AsyncHTTPException := true;
  format_exc := fun e => "Traceback (most recent call last): " +:+ exc_str e
|}.

Definition python38 : Runtime := {|
  cancelled_is_Exception := false;
  server_error_is_AsyncHTTPException := true;
  format_exc := fun e => "Traceback (most recent call last): " +:+ exc_str e
|}.

Definition request0 : Request := mkRequest 0 None None None.

(** A callback that returns. *)
Definition returning : value -> outcome unit := fun _ => Returns tt.

Definition plain_error_handler : ErrorHandler := {|
  eh_response := fun _ e => Returns (VHTTPResponse
                   (mkHTTPResponse (exc_str e) 500 Omitted Omitted));
  eh_default := fun _ e => VHTTPResponse
                   (mkHTTPResponse (exc_str e) 500 Omitted Omitted)
|}.

(** A server with one route and no middleware. *)
Definition serving (h : Handler) : AsyncHTTPServer := {|
  name := "app";
  router := Some (fun _ => Returns (Some h, [], [], "/"));
  error_handler := plain_error_handler;
  request_middleware := [];
  response_middleware := [];
  debug := false
|}.

Definition with_request_middleware (mws : list RequestMiddleware)
    (self : AsyncHTTPServer) : AsyncHTTPServer := {|
  name := name self;
  router := router self;
  error_handler := error_handler self;
  request_middleware := mws;
  response_middleware := response_middleware self;
  debug := debug self
|}.

Definition with_response_middleware (mws : list ResponseMiddleware)
    (self : AsyncHTTPServer) : AsyncHTTPServer := {|
  name := name self;
  router := router self;
  error_handler := error_handler self;
  request_middleware := request_middleware self;
  response_middleware := mws;
  debug := debug self
|}.

Definition hello : value :=
  VHTTPResponse (mkHTTPResponse "hello" 200 Omitted Omitted).

Definition deny : value :=
  VHTTPResponse (mkHTTPResponse "denied" 403 Omitted Omitted).

Definition teapot : value :=
  VHTTPResponse (mkHTTPResponse "teapot" 418 Omitted Omitted).

Definition boom : exn := mkExn OtherException "boom".

Definition hello_handler : Handler := {|
  h_name := "index";
  h_blueprintname := None;
  h_call := fun _ _ _ => Returns hello
|}.

(** A handler that is interrupted from the keyboard. *)
Definition interrupted_handler : Handler := {|
  h_name := "index";
  h_blueprintname := None;
  h_call := fun _ _ _ => Raises (mkExn OtherBaseException "KeyboardInterrupt")
|}.

(** A handler whose suspended result exposes the three accessors. *)
Definition suspended_handler : Handler := {|
  h_name := "fn";
  h_blueprintname := Some "bp";
  h_call := fun _ _ _ =>
    Returns (VAwaitable (Returns
      (VResult "ok" 201 ({[ "Content-Type" := "text/plain" ]}))))
|}.

Definition failing_handler : Handler := {|
  h_name := "index";
  h_blueprintname := None;
  h_call := fun _ _ _ => Raises boom
|}.

Definition silent_handler : Handler := {|
  h_name := "ping";
  h_blueprintname := None;
  h_call := fun _ _ _ => Returns VNone
|}.

Definition rq_continue : RequestMiddleware :=
  {| rq_id := 0; rq_call := fun _ => Returns VNone |}.

Definition rq_deny : RequestMiddleware :=
  {| rq_id := 1; rq_call := fun _ => Returns (VAwaitable (Returns deny)) |}.

Definition rq_late : RequestMiddleware :=
  {| rq_id := 2; rq_call := fun _ => Returns deny |}.

Definition rs_continue : ResponseMiddleware :=
  {| rs_id := 0; rs_call := fun _ _ => Returns VNone |}.

Definition rs_replace : ResponseMiddleware :=
  {| rs_id := 1; rs_call := fun _ _ => Returns (VAwaitable (Returns teapot)) |}.

Definition rs_late : ResponseMiddleware :=
  {| rs_id := 2; rs_call := fun _ v => Returns v |}.

(** A post-handler middleware that is cancelled while it is awaited. *)
Definition rs_cancelled : ResponseMiddleware :=
  {| rs_id := 3;
     rs_call := fun _ _ => Returns (VAwaitable (Raises cancellation)) |}.

(** A post-handler middleware that fails with an ordinary exception. *)
Definition rs_broken : ResponseMiddleware :=
  {| rs_id := 4; rs_call := fun _ _ => Raises boom |}.

(** A post-handler middleware that is interrupted from the keyboard. *)
Definition rs_interrupted : ResponseMiddleware :=
  {| rs_id := 5;
     rs_call := fun _ _ =>
       Raises (mkExn OtherBaseException "KeyboardInterrupt") |}.

Definition unrouted : AsyncHTTPServer := {|
  name := "app";
  router := Some (fun _ => Returns (None, [], [], "/missing"));
  error_handler := plain_error_handler;
  request_middleware := [];
  response_middleware := [];
  debug := false
|}.

(** A server whose handler fails and whose error handler then ends with
    [o]. *)
Definition doubly_failing (dbg : bool) (o : outcome value)
    : AsyncHTTPServer := {|
  name := "app";
  router := Some (fun _ => Returns (Some failing_handler, [], [], "/"));
  error_handler := {|
    eh_response := fun _ _ => o;
    eh_default := fun _ e =>
      VHTTPResponse (mkHTTPResponse (exc_str e) 400 Omitted Omitted)
  |};
  request_middleware := [];
  response_middleware := [];
  debug := dbg
|}.

(** The handler fails, and the error handler's mapping is cancelled
    while it is awaited; one post-handler middleware is installed. *)
Definition cancelled_in_recovery : AsyncHTTPServer :=
  with_response_middleware [rs_continue]
    (doubly_failing false (Returns (VAwaitable (Raises cancellation)))).

(** ** The request and the order of the calls *)

(** [m] leaves the attribute [g] of the request as it found it. *)
Definition keeps_attr {A B} (g : Request -> B) (m : M A) : Prop :=
  forall f, g (request (frame (m f))) = g (request f).

(** What [None.get] raises when the server was built without a router. *)
Definition no_router_error : exn :=
  mkExn OtherException "'NoneType' object has no attribute 'get'".

(** The calls a dispatch can make: none, the router alone, the router and
    the handler, and the log line when the handler's result is awaited. *)
Definition dispatch_shape (d : list event) : Prop :=
  d = [] \/ d = [CallRouterGet] \/
  exists n, d = [CallRouterGet; CallHandler n] \/
            d = [CallRouterGet; CallHandler n;
                 LogInfo "got response from function"].

(** The calls a recovery can make: none, the log line and the primary
    mapping, and the default producer after them. *)
Definition recovery_shape (r : list event) : Prop :=
  r = [] \/
  exists e, r = [LogError "Exception: "; CallErrorResponse e] \/
    exists e2, r = [LogError "Exception: "; CallErrorResponse e;
                    CallErrorDefault e2].

(** ** More inputs *)

Definition stream7 : value := VStreamingHTTPResponse 7.

Definition streaming_handler : Handler := {|
  h_name := "feed";
  h_blueprintname := Some "";
  h_call := fun _ _ _ => Returns stream7
|}.

(** A coroutine handler that returns nothing. *)
Definition empty_coroutine_handler : Handler := {|
  h_name := "noop";
  h_blueprintname := None;
  h_call := fun _ _ _ => Returns (VAwaitable (Returns VNone))
|}.

(** A handler that is cancelled while its result is awaited. *)
Definition cancelled_handler : Handler := {|
  h_name := "slow";
  h_blueprintname := None;
  h_call := fun _ _ _ => Returns (VAwaitable (Raises cancellation))
|}.

(** A handler that is interrupted from the keyboard while its result is
    awaited. *)
Definition interrupted_coroutine_handler : Handler := {|
  h_name := "wait";
  h_blueprintname := None;
  h_call := fun _ _ _ =>
    Returns (VAwaitable (Raises (mkExn OtherBaseException "KeyboardInterrupt")))
|}.

(** A stream callback that is cancelled while it drains the response. *)
Definition cancelled_callback : value -> outcome unit :=
  fun _ => Raises cancellation.

(** A router without a handler, and an error handler whose mapping
    returns nothing. *)
Definition unrouted_unanswered : AsyncHTTPServer := {|
  name := "app";
  router := Some (fun _ => Returns (None, [], [], "/missing"));
  error_handler := {|
    eh_response := fun _ _ => Returns VNone;
    eh_default := fun _ e =>
      VHTTPResponse (mkHTTPResponse (exc_str e) 500 Omitted Omitted)
  |};
  request_middleware := [];
  response_middleware := [];
  debug := false
|}.

(** A server as it is built with no router. *)
Definition routerless : AsyncHTTPServer := {|
  name := "app";
  router := None;
  error_handler := plain_error_handler;
  request_middleware := [];
  response_middleware := [];
  debug := false
|}.

(** A pre-handler middleware that fails. *)
Definition rq_broken : RequestMiddleware :=
  {| rq_id := 6; rq_call := fun _ => Raises boom |}.

(** * Lemmas *)

(** ** Runs and loops *)

Lemma prepend_nil {A} (r : Run A) : prepend [] r = r.
Proof. destruct r; reflexivity. Qed.

Lemma prepend_prepend {A} (t1 t2 : list event) (r : Run A) :
  prepend t1 (prepend t2 r) = prepend (t1 ++ t2) r.
Proof. unfold prepend; simpl. now rewrite app_assoc. Qed.

Lemma bind_run {A B} (m : M A) (k : A -> M B) f :
  bind m k f =
  match result (m f) with
  | Returns a => prepend (trace (m f)) (k a (frame (m f)))
  | Raises e => mkRun (trace (m f)) (frame (m f)) (Raises e)
  end.
Proof. reflexivity. Qed.

Lemma passes_resolved o :
  passes o = true -> exists v, resolved o = Returns v /\ truthy v = false.
Proof.
  unfold passes. destruct (resolved o) as [v|e]; [|discriminate].
  intros H. exists v. split; [reflexivity|].
  now apply negb_true_iff in H.
Qed.

(** A call followed by [resolve]: one event, the frame untouched. *)
Lemma call_resolve {B} ev (o : Frame -> outcome value) (k : value -> M B) f :
  (x <- call ev o ;; y <- resolve x ;; k y) f =
  match resolved (o f) with
  | Returns a => prepend [ev] (k a f)
  | Raises e => mkRun [ev] f (Raises e)
  end.
Proof.
  unfold bind, call, resolve, prepend; simpl.
  destruct (o f) as [v|e]; simpl; [|reflexivity].
  destruct v as [ | | | | |[a|e]]; reflexivity.
Qed.

(** *** The two loops *)

Lemma request_middleware_loop_app pre rest f :
  Forall (fun mw => passes (rq_call mw (request f)) = true) pre ->
  request_middleware_loop (pre ++ rest) f =
  prepend (request_calls pre) (request_middleware_loop rest f).
Proof.
  induction pre as [|mw pre IH]; intros Hpre; simpl.
  - now rewrite prepend_nil.
  - inversion Hpre as [|? ? Hmw Hrest]; subst.
    destruct (passes_resolved _ Hmw) as (v & Hv & Hfalse).
    unfold call_request_middleware. rewrite call_resolve; simpl.
    rewrite Hv, Hfalse, (IH Hrest). now rewrite prepend_prepend.
Qed.

Lemma request_middleware_loop_all mws f :
  Forall (fun mw => passes (rq_call mw (request f)) = true) mws ->
  request_middleware_loop mws f = mkRun (request_calls mws) f (Returns VNone).
Proof.
  intros Hall. rewrite <- (app_nil_r mws) at 1.
  rewrite request_middleware_loop_app by exact Hall.
  unfold prepend; simpl. now rewrite app_nil_r.
Qed.

Lemma request_middleware_loop_first mw post f v :
  resolved (rq_call mw (request f)) = Returns v -> truthy v = true ->
  request_middleware_loop (mw :: post) f =
  mkRun [CallRequestMiddleware (rq_id mw)] f (Returns v).
Proof.
  intros Hv Ht. simpl. unfold call_request_middleware.
  rewrite call_resolve; simpl. now rewrite Hv, Ht.
Qed.

Lemma request_middleware_loop_raises mw post f e :
  resolved (rq_call mw (request f)) = Raises e ->
  request_middleware_loop (mw :: post) f =
  mkRun [CallRequestMiddleware (rq_id mw)] f (Raises e).
Proof.
  intros He. simpl. unfold call_request_middleware.
  rewrite call_resolve; simpl. now rewrite He.
Qed.

Lemma run_request_middleware_loop self f :
  _run_request_middleware self f =
  request_middleware_loop (request_middleware self) f.
Proof. unfold _run_request_middleware. now destruct (request_middleware self). Qed.

Lemma response_middleware_loop_app pre rest v f :
  Forall (fun mw => passes (rs_call mw (request f) v) = true) pre ->
  response_middleware_loop (pre ++ rest) v f =
  prepend (response_calls pre v) (response_middleware_loop rest v f).
Proof.
  induction pre as [|mw pre IH]; intros Hpre; simpl.
  - now rewrite prepend_nil.
  - inversion Hpre as [|? ? Hmw Hrest]; subst.
    destruct (passes_resolved _ Hmw) as (u & Hu & Hfalse).
    unfold call_response_middleware. rewrite call_resolve; simpl.
    rewrite Hu, Hfalse, (IH Hrest). now rewrite prepend_prepend.
Qed.

Lemma response_middleware_loop_all mws v f :
  Forall (fun mw => passes (rs_call mw (request f) v) = true) mws ->
  response_middleware_loop mws v f = mkRun (response_calls mws v) f (Returns v).
Proof.
  intros Hall. rewrite <- (app_nil_r mws) at 1.
  rewrite response_middleware_loop_app by exact Hall.
  unfold prepend; simpl. now rewrite app_nil_r.
Qed.

Lemma response_middleware_loop_first mw post v f u :
  resolved (rs_call mw (request f) v) = Returns u -> truthy u = true ->
  response_middleware_loop (mw :: post) v f =
  mkRun [CallResponseMiddleware (rs_id mw) v] f (Returns u).
Proof.
  intros Hu Ht. simpl. unfold call_response_middleware.
  rewrite call_resolve; simpl. now rewrite Hu, Ht.
Qed.

Lemma response_middleware_loop_raises mw post v f e :
  resolved (rs_call mw (request f) v) = Raises e ->
  response_middleware_loop (mw :: post) v f =
  mkRun [CallResponseMiddleware (rs_id mw) v] f (Raises e).
Proof.
  intros He. simpl. unfold call_response_middleware.
  rewrite call_resolve; simpl. now rewrite He.
Qed.

Lemma run_response_middleware_loop self v f :
  _run_response_middleware self v f =
  response_middleware_loop (response_middleware self) v f.
Proof.
  unfold _run_response_middleware. now destruct (response_middleware self).
Qed.

(** *** What the pieces may emit *)

Section Emits.

Context {P : event -> bool}.

Lemma emits_only_ret {A} (a : A) : emits_only P (ret a).
Proof. intros f. constructor. Qed.

Lemma emits_only_raise {A} e : emits_only P (@raise A e).
Proof. intros f. constructor. Qed.

Lemma emits_only_frame {A} (g : Frame -> Frame) (h : Frame -> A) :
  emits_only P (fun f => mkRun [] (g f) (Returns (h f))).
Proof. intros f. constructor. Qed.

Lemma emits_only_emit ev : P ev = true -> emits_only P (emit ev).
Proof. intros H f. simpl. now repeat constructor. Qed.

Lemma emits_only_call {A} ev (o : Frame -> outcome A) :
  P ev = true -> emits_only P (call ev o).
Proof. intros H f. simpl. now repeat constructor. Qed.

Lemma emits_only_bind {A B} (m : M A) (k : A -> M B) :
  emits_only P m -> (forall a, emits_only P (k a)) -> emits_only P (bind m k).
Proof.
  intros Hm Hk f. unfold bind. specialize (Hm f).
  destruct (result (m f)) as [a|e]; simpl; [|exact Hm].
  apply Forall_app. split; [exact Hm|apply Hk].
Qed.

Lemma emits_only_try_except {A} (m : M A) (h : exn -> M A) :
  emits_only P m -> (forall e, emits_only P (h e)) ->
  emits_only P (try_except m h).
Proof.
  intros Hm Hh f. unfold try_except. specialize (Hm f).
  destruct (result (m f)) as [a|e]; simpl; [exact Hm|].
  apply Forall_app. split; [exact Hm|apply Hh].
Qed.

Lemma emits_only_try_finally {A} (m : M A) (fin : M unit) :
  emits_only P m -> emits_only P fin -> emits_only P (try_finally m fin).
Proof.
  intros Hm Hfin f. unfold try_finally; simpl.
  apply Forall_app. split; [apply Hm|apply Hfin].
Qed.

Lemma emits_only_await v : emits_only P (await v).
Proof.
  destruct v as [ | | | | |[a|e]];
    first [apply emits_only_ret | apply emits_only_raise].
Qed.

Lemma emits_only_resolve v : emits_only P (resolve v).
Proof.
  unfold resolve. destruct (isawaitable v);
    [apply emits_only_await | apply emits_only_ret].
Qed.

End Emits.

(** One step through a piece of the coroutine. *)
Ltac emits_step :=
  lazymatch goal with
  | |- emits_only _ (bind _ _) => apply emits_only_bind; [|intros ?]
  | |- emits_only _ (try_except _ _) => apply emits_only_try_except; [|intros ?]
  | |- emits_only _ (try_finally _ _) => apply emits_only_try_finally
  | |- emits_only _ (ret _) => apply emits_only_ret
  | |- emits_only _ (raise _) => apply emits_only_raise
  | |- emits_only _ (await _) => apply emits_only_await
  | |- emits_only _ (resolve _) => apply emits_only_resolve
  | |- emits_only _ (emit _) => apply emits_only_emit; reflexivity
  | |- emits_only _ (call _ _) => apply emits_only_call; reflexivity
  | |- emits_only _ get_response => apply emits_only_frame
  | |- emits_only _ get_cancelled => apply emits_only_frame
  | |- emits_only _ (set_response _) => apply emits_only_frame
  | |- emits_only _ (set_cancelled _) => apply emits_only_frame
  | |- emits_only _ (set_request _) => apply emits_only_frame
  | |- emits_only _ (if ?b then _ else _) => destruct b
  | |- emits_only _ (match ?x with _ => _ end) => destruct x
  | |- emits_only _ (let '(_, _) := ?x in _) => destruct x
  end.

Lemma request_middleware_loop_emits P mws :
  (forall id, P (CallRequestMiddleware id) = true) ->
  emits_only P (request_middleware_loop mws).
Proof.
  intros HP. induction mws as [|mw mws IH]; simpl.
  - emits_step.
  - unfold call_request_middleware.
    emits_step; [apply emits_only_call, HP|].
    repeat emits_step. exact IH.
Qed.

Lemma response_middleware_loop_emits P mws v :
  (forall id u, P (CallResponseMiddleware id u) = true) ->
  emits_only P (response_middleware_loop mws v).
Proof.
  intros HP. induction mws as [|mw mws IH]; simpl.
  - emits_step.
  - unfold call_response_middleware.
    emits_step; [apply emits_only_call, HP|].
    repeat emits_step. exact IH.
Qed.

Lemma run_request_middleware_emits P self :
  (forall id, P (CallRequestMiddleware id) = true) ->
  emits_only P (_run_request_middleware self).
Proof.
  intros HP f. rewrite run_request_middleware_loop.
  now apply request_middleware_loop_emits.
Qed.

Lemma run_response_middleware_emits P self v :
  (forall id u, P (CallResponseMiddleware id u) = true) ->
  emits_only P (_run_response_middleware self v).
Proof.
  intros HP f. rewrite run_response_middleware_loop.
  now apply response_middleware_loop_emits.
Qed.

Lemma dispatch_emits self : emits_only not_callback (dispatch self).
Proof.
  unfold dispatch, run_handler, router_get, call_handler, rebuild.
  repeat emits_step.
Qed.

Lemma attempt_emits self : emits_only not_callback (attempt self).
Proof.
  unfold attempt. repeat emits_step.
  - now apply run_request_middleware_emits.
  - apply dispatch_emits.
Qed.

Lemma recover_emits P py self e :
  (forall e', P (CallErrorResponse e') = true) ->
  (forall e', P (CallErrorDefault e') = true) ->
  (forall s, P (LogError s) = true) ->
  emits_only P (recover py self e).
Proof.
  intros H1 H2 H3. unfold recover, call_error_response, call_error_default.
  emits_step; [apply emits_only_emit, H3|].
  emits_step.
  - emits_step; [apply emits_only_call, H1|]. repeat emits_step.
  - emits_step; [|emits_step]. emits_step; [|repeat emits_step].
    emits_step; [apply emits_only_call, H2|]. repeat emits_step.
Qed.

Lemma finalizer_emits P self :
  (forall id u, P (CallResponseMiddleware id u) = true) ->
  (forall s, P (LogError s) = true) ->
  emits_only P (finalizer self).
Proof.
  intros H1 H2. unfold finalizer.
  emits_step; [emits_step|]. emits_step; [|repeat emits_step].
  emits_step; [|emits_step]. emits_step.
  - emits_step; [now apply run_response_middleware_emits|]. emits_step.
  - emits_step; [repeat emits_step|]. apply emits_only_emit, H2.
Qed.

Lemma guarded_emits py self : emits_only not_callback (guarded py self).
Proof.
  unfold guarded.
  emits_step; [apply attempt_emits|].
  emits_step; [repeat emits_step|]. emits_step; [|emits_step].
  now apply recover_emits.
Qed.

Lemma pipeline_emits py self : emits_only not_callback (pipeline py self).
Proof.
  unfold pipeline.
  emits_step; [emits_step|]. emits_step; [emits_step|].
  emits_step; [apply guarded_emits|now apply finalizer_emits].
Qed.

Lemma emits_no_callbacks tr :
  Forall (fun ev => not_callback ev = true) tr -> callbacks tr = [].
Proof.
  induction 1 as [|ev tr Hev _ IH]; [reflexivity|].
  unfold callbacks in *; simpl. unfold not_callback in Hev.
  apply negb_true_iff in Hev. now rewrite Hev.
Qed.

Lemma callbacks_app t1 t2 : callbacks (t1 ++ t2) = callbacks t1 ++ callbacks t2.
Proof. unfold callbacks. apply List.filter_app. Qed.

(** *** The phases of [handle_request] *)

Lemma loops_keep_frame_request mws f :
  frame (request_middleware_loop mws f) = f.
Proof.
  induction mws as [|mw mws IH]; simpl; [reflexivity|].
  unfold call_request_middleware. rewrite call_resolve.
  destruct (resolved _) as [v|e]; [|reflexivity]. simpl.
  destruct (truthy v); [reflexivity|exact IH].
Qed.

Lemma loops_keep_frame_response mws v f :
  frame (response_middleware_loop mws v f) = f.
Proof.
  induction mws as [|mw mws IH]; simpl; [reflexivity|].
  unfold call_response_middleware. rewrite call_resolve.
  destruct (resolved _) as [u|e]; [|reflexivity]. simpl.
  destruct (truthy u); [reflexivity|exact IH].
Qed.

Lemma output_run write_callback stream_callback f :
  output write_callback stream_callback f =
  mkRun [callback_for (response f)] f
        (callback_result write_callback stream_callback (response f)).
Proof.
  unfold output, callback_for, callback_result. rewrite bind_run.
  cbn [get_response result trace frame]. unfold prepend, call.
  destruct (isinstance_StreamingHTTPResponse (response f)); reflexivity.
Qed.

Lemma attempt_short_circuit self req pre mw post v :
  request_middleware self = pre ++ mw :: post ->
  Forall (fun m => passes (rq_call m (assign_app (name self) req)) = true) pre ->
  resolved (rq_call mw (assign_app (name self) req)) = Returns v ->
  truthy v = true ->
  attempt self (entry req) =
  mkRun (request_calls (pre ++ [mw]))
        (mkFrame (assign_app (name self) req) v false) (Returns tt).
Proof.
  intros Hl Hpre Hv Ht. unfold attempt, bind; simpl.
  rewrite run_request_middleware_loop, Hl.
  rewrite request_middleware_loop_app by exact Hpre.
  rewrite (request_middleware_loop_first _ _ _ v) by assumption.
  simpl. rewrite Ht. simpl. unfold request_calls.
  now rewrite map_app, !app_nil_r.
Qed.

Lemma attempt_dispatches self req :
  Forall (fun m => passes (rq_call m (assign_app (name self) req)) = true)
         (request_middleware self) ->
  attempt self (entry req) =
  prepend (request_calls (request_middleware self))
          (dispatch self (entered self req)).
Proof.
  intros Hall. unfold attempt, bind; simpl.
  rewrite run_request_middleware_loop.
  rewrite request_middleware_loop_all by exact Hall.
  reflexivity.
Qed.

Lemma dispatch_found self get h args kwargs uri f :
  router self = Some get ->
  get (request f) = Returns (Some h, args, kwargs, uri) ->
  dispatch self f =
  prepend [CallRouterGet] (run_handler h args kwargs (routed self h uri f)).
Proof.
  intros Hr Hg. unfold dispatch, router_get, bind, call; rewrite Hr; simpl.
  rewrite Hg; simpl. reflexivity.
Qed.

Lemma dispatch_no_handler self get args kwargs uri f :
  router self = Some get ->
  get (request f) = Returns (None, args, kwargs, uri) ->
  dispatch self f =
  mkRun [CallRouterGet]
        (mkFrame (assign_uri_template uri (request f)) (response f)
                 (cancelled f))
        (Raises (server_error)).
Proof.
  intros Hr Hg. unfold dispatch, router_get, bind, call; rewrite Hr; simpl.
  rewrite Hg; simpl. reflexivity.
Qed.

Lemma run_handler_immediate h args kwargs f v :
  h_call h (request f) args kwargs = Returns v ->
  isawaitable v = false ->
  run_handler h args kwargs f =
  mkRun [CallHandler (h_name h)] (mkFrame (request f) v (cancelled f))
        (Returns tt).
Proof.
  intros Hc Ha. unfold run_handler, call_handler, bind, call; simpl.
  rewrite Hc; simpl. rewrite Ha; simpl. reflexivity.
Qed.

Lemma run_handler_suspended h args kwargs f b s hd :
  h_call h (request f) args kwargs =
    Returns (VAwaitable (Returns (VResult b s hd))) ->
  run_handler h args kwargs f =
  mkRun [CallHandler (h_name h); LogInfo "got response from function"]
        (mkFrame (request f)
           (VHTTPResponse
              (mkHTTPResponse b s (Passed hd) (Passed (hd !! "Content-Type"))))
           (cancelled f))
        (Returns tt).
Proof.
  intros Hc. unfold run_handler, call_handler, bind, call; simpl.
  rewrite Hc; simpl. reflexivity.
Qed.

Lemma guarded_returns py self f :
  result (attempt self f) = Returns tt ->
  guarded py self f = attempt self f.
Proof. intros H. unfold guarded, try_except. now rewrite H. Qed.

Lemma guarded_recovers py self f e :
  result (attempt self f) = Raises e ->
  isinstance_CancelledError e = false ->
  isinstance_Exception py e = true ->
  guarded py self f =
  prepend (trace (attempt self f)) (recover py self e (frame (attempt self f))).
Proof.
  intros H Hc He. unfold guarded, try_except. now rewrite H, Hc, He.
Qed.

Lemma guarded_cancels py self f e :
  result (attempt self f) = Raises e ->
  isinstance_CancelledError e = true ->
  guarded py self f =
  mkRun (trace (attempt self f))
        (mkFrame (request (frame (attempt self f))) VNone true) (Returns tt).
Proof.
  intros H Hc. unfold guarded, try_except. rewrite H, Hc.
  unfold bind; simpl. now rewrite app_nil_r.
Qed.

Lemma guarded_propagates py self f e :
  result (attempt self f) = Raises e ->
  isinstance_CancelledError e = false ->
  isinstance_Exception py e = false ->
  guarded py self f = attempt self f.
Proof.
  intros H Hc He. unfold guarded, try_except. rewrite H, Hc, He.
  destruct (attempt self f) as [tr fr res]; simpl in *; subst res.
  now rewrite app_nil_r.
Qed.

Lemma pipeline_run py self req :
  pipeline py self (entry req) =
  try_finally (guarded py self) (finalizer self) (entry req).
Proof.
  unfold pipeline. rewrite !bind_run. simpl. unfold prepend; simpl.
  reflexivity.
Qed.

(** The whole coroutine, read off its two phases. *)
Lemma handle_request_run py self req write_callback stream_callback :
  let g := guarded py self (entry req) in
  let fin := finalizer self (frame g) in
  handle_request py self req write_callback stream_callback =
  match result fin, result g with
  | Returns _, Returns _ =>
      mkRun ((trace g ++ trace fin) ++ [callback_for (response (frame fin))])
            (frame fin)
            (callback_result write_callback stream_callback
               (response (frame fin)))
  | Returns _, Raises e => mkRun (trace g ++ trace fin) (frame fin) (Raises e)
  | Raises e, _ => mkRun (trace g ++ trace fin) (frame fin) (Raises e)
  end.
Proof.
  intros g fin. unfold handle_request, handle_request_from.
  rewrite bind_run, pipeline_run. unfold try_finally.
  fold g. fold fin. clearbody fin. clearbody g.
  destruct (result fin) as [[]|e]; [destruct (result g) as [[]|e]|];
    simpl; rewrite ?output_run; reflexivity.
Qed.

(** *** The [cancelled] flag *)

Lemma keeps_cancelled_ret {A} (a : A) : keeps_cancelled (ret a).
Proof. intros f. reflexivity. Qed.

Lemma keeps_cancelled_raise {A} e : keeps_cancelled (@raise A e).
Proof. intros f. reflexivity. Qed.

Lemma keeps_cancelled_emit ev : keeps_cancelled (emit ev).
Proof. intros f. reflexivity. Qed.

Lemma keeps_cancelled_call {A} ev (o : Frame -> outcome A) :
  keeps_cancelled (call ev o).
Proof. intros f. reflexivity. Qed.

Lemma keeps_cancelled_set_response v : keeps_cancelled (set_response v).
Proof. intros f. reflexivity. Qed.

Lemma keeps_cancelled_set_request upd : keeps_cancelled (set_request upd).
Proof. intros f. reflexivity. Qed.

Lemma keeps_cancelled_bind {A B} (m : M A) (k : A -> M B) :
  keeps_cancelled m -> (forall a, keeps_cancelled (k a)) ->
  keeps_cancelled (bind m k).
Proof.
  intros Hm Hk f. rewrite bind_run.
  destruct (result (m f)) as [a|e]; simpl; [|apply Hm].
  now rewrite Hk, Hm.
Qed.

Lemma keeps_cancelled_try_except {A} (m : M A) (h : exn -> M A) :
  keeps_cancelled m -> (forall e, keeps_cancelled (h e)) ->
  keeps_cancelled (try_except m h).
Proof.
  intros Hm Hh f. unfold try_except.
  destruct (result (m f)) as [a|e]; simpl; [apply Hm|].
  now rewrite Hh, Hm.
Qed.

Lemma keeps_cancelled_await v : keeps_cancelled (await v).
Proof. intros f. now destruct v as [ | | | | |[a|e]]. Qed.

Lemma keeps_cancelled_run_request_middleware self :
  keeps_cancelled (_run_request_middleware self).
Proof.
  intros f. now rewrite run_request_middleware_loop, loops_keep_frame_request.
Qed.

Ltac keeps_step :=
  lazymatch goal with
  | |- keeps_cancelled (bind _ _) => apply keeps_cancelled_bind; [|intros ?]
  | |- keeps_cancelled (try_except _ _) =>
      apply keeps_cancelled_try_except; [|intros ?]
  | |- keeps_cancelled (ret _) => apply keeps_cancelled_ret
  | |- keeps_cancelled (raise _) => apply keeps_cancelled_raise
  | |- keeps_cancelled (await _) => apply keeps_cancelled_await
  | |- keeps_cancelled (emit _) => apply keeps_cancelled_emit
  | |- keeps_cancelled (call _ _) => apply keeps_cancelled_call
  | |- keeps_cancelled (set_response _) => apply keeps_cancelled_set_response
  | |- keeps_cancelled (set_request _) => apply keeps_cancelled_set_request
  | |- keeps_cancelled (_run_request_middleware _) =>
      apply keeps_cancelled_run_request_middleware
  | |- keeps_cancelled (if ?b then _ else _) => destruct b
  | |- keeps_cancelled (match ?x with _ => _ end) => destruct x
  | |- keeps_cancelled (let '(_, _) := ?x in _) => destruct x
  end.

Lemma attempt_keeps_cancelled self : keeps_cancelled (attempt self).
Proof.
  unfold attempt, dispatch, run_handler, router_get, call_handler, rebuild.
  repeat keeps_step.
Qed.

Lemma recover_keeps_cancelled py self e : keeps_cancelled (recover py self e).
Proof.
  unfold recover, call_error_response, call_error_default.
  repeat keeps_step.
Qed.

(** Once the outer [try] is left, a raised flag means the response was
    dropped. *)
Lemma guarded_cancelled_drops py self f :
  cancelled f = false ->
  cancelled (frame (guarded py self f)) = true ->
  response (frame (guarded py self f)) = VNone.
Proof.
  intros Hf.
  destruct (result (attempt self f)) as [[]|e] eqn:Ha.
  - rewrite (guarded_returns _ _ _ Ha), attempt_keeps_cancelled. congruence.
  - destruct (isinstance_CancelledError e) eqn:Hc.
    { now rewrite (guarded_cancels _ _ _ _ Ha Hc). }
    destruct (isinstance_Exception py e) eqn:He.
    + rewrite (guarded_recovers _ _ _ _ Ha Hc He). unfold prepend.
      cbn [frame]. rewrite recover_keeps_cancelled, attempt_keeps_cancelled.
      congruence.
    + rewrite (guarded_propagates _ _ _ _ Ha Hc He), attempt_keeps_cancelled.
      congruence.
Qed.

(** *** The [finally] clause *)

Lemma finalizer_absent self f :
  response f = VNone ->
  finalizer self f =
  mkRun [] f (if cancelled f then Raises cancellation else Returns tt).
Proof.
  intros Hr. unfold finalizer. rewrite !bind_run; simpl. rewrite Hr; simpl.
  rewrite !bind_run; simpl. destruct (cancelled f); reflexivity.
Qed.

Lemma finalizer_present self f :
  is_not_None (response f) = true ->
  let run := _run_response_middleware self (response f) f in
  finalizer self f =
  match result run with
  | Returns r =>
      mkRun (trace run) (mkFrame (request f) r (cancelled f))
            (if cancelled f then Raises cancellation else Returns tt)
  | Raises e =>
      if isinstance_CancelledError e then
        mkRun (trace run) (mkFrame (request f) VNone true) (Raises cancellation)
      else
        mkRun (trace run ++ [middleware_failure]) f
              (if cancelled f then Raises cancellation else Returns tt)
  end.
Proof.
  intros Hr run.
  assert (Hfr : frame run = f).
  { unfold run. now rewrite run_response_middleware_loop,
      loops_keep_frame_response. }
  unfold finalizer. rewrite bind_run; simpl. rewrite Hr.
  unfold prepend; simpl. rewrite bind_run. unfold try_except.
  rewrite bind_run. fold run. clearbody run.
  destruct run as [tr fr [r|e]]; simpl in *; subst fr.
  - destruct (cancelled f); simpl; now rewrite ?app_nil_r.
  - destruct (isinstance_CancelledError e); simpl.
    + now rewrite ?app_nil_r.
    + destruct f as [rq rs c]; simpl.
      destruct c; simpl; now rewrite ?app_nil_r.
Qed.

(** *** What can leave the coroutine *)

Lemma result_bind {A B} (m : M A) (k : A -> M B) f :
  result (bind m k f) =
  match result (m f) with
  | Returns a => result (k a (frame (m f)))
  | Raises e => Raises e
  end.
Proof. rewrite bind_run. now destruct (result (m f)). Qed.

Lemma result_try_except {A} (m : M A) (h : exn -> M A) f :
  result (try_except m h f) =
  match result (m f) with
  | Returns a => Returns a
  | Raises e => result (h e (frame (m f)))
  end.
Proof.
  unfold try_except. destruct (result (m f)) as [a|e] eqn:H; [exact H|].
  reflexivity.
Qed.

Lemma recover_raises_only_signals py self e :
  raises_only_signals py (recover py self e).
Proof.
  intros f e' H. unfold recover in H.
  rewrite result_bind in H. cbn [emit result frame] in H.
  rewrite result_try_except in H.
  destruct (result _) as [[]|e2]; [discriminate|]. cbv beta in H.
  destruct (isinstance_Exception py e2) eqn:He2.
  - destruct (isinstance_AsyncHTTPException py e2); [discriminate|].
    destruct (debug self); discriminate.
  - injection H as <-. now right.
Qed.

Lemma guarded_raises_only_signals py self :
  raises_only_signals py (guarded py self).
Proof.
  intros f e' H. unfold guarded in H. rewrite result_try_except in H.
  destruct (result (attempt self f)) as [[]|e]; [discriminate|]. cbv beta in H.
  destruct (isinstance_CancelledError e) eqn:Hc; [discriminate|].
  destruct (isinstance_Exception py e) eqn:He.
  - now apply recover_raises_only_signals in H.
  - injection H as <-. now right.
Qed.

Lemma is_not_None_false v : is_not_None v = false -> v = VNone.
Proof. now destruct v. Qed.

Lemma finalizer_raises self f e :
  result (finalizer self f) = Raises e -> e = cancellation.
Proof.
  destruct (is_not_None (response f)) eqn:Hr.
  - rewrite (finalizer_present _ _ Hr).
    destruct (result (_run_response_middleware _ _ _)) as [r|e'].
    + destruct (cancelled f); simpl; congruence.
    + destruct (isinstance_CancelledError e'); simpl; [congruence|].
      destruct (cancelled f); simpl; congruence.
  - rewrite (finalizer_absent _ _ (is_not_None_false _ Hr)).
    destruct (cancelled f); simpl; congruence.
Qed.

Lemma pipeline_raises_only_signals py self req e :
  result (pipeline py self (entry req)) = Raises e ->
  isinstance_CancelledError e = true \/ isinstance_Exception py e = false.
Proof.
  rewrite pipeline_run. unfold try_finally. cbn [result].
  destruct (result (finalizer _ _)) as [[]|e'] eqn:Hfin.
  - apply guarded_raises_only_signals.
  - intros [= <-]. apply finalizer_raises in Hfin. subst e'. now left.
Qed.

(** The coroutine, read off the [try] statement and the output routing. *)
Lemma handle_request_pipeline py self req write_callback stream_callback :
  let p := pipeline py self (entry req) in
  handle_request py self req write_callback stream_callback =
  match result p with
  | Returns _ =>
      mkRun (trace p ++ [callback_for (response (frame p))]) (frame p)
            (callback_result write_callback stream_callback
               (response (frame p)))
  | Raises e => mkRun (trace p) (frame p) (Raises e)
  end.
Proof.
  intros p. unfold handle_request, handle_request_from.
  rewrite bind_run. fold p. destruct (result p); [|reflexivity].
  now rewrite output_run.
Qed.

Lemma callback_for_is_callback v : is_callback (callback_for v) = true.
Proof. unfold callback_for. now destruct (isinstance_StreamingHTTPResponse v). Qed.

Lemma callbacks_one tr v :
  callbacks tr = [] -> callbacks (tr ++ [callback_for v]) = [callback_for v].
Proof.
  intros H. rewrite callbacks_app, H. unfold callbacks; simpl.
  now rewrite callback_for_is_callback.
Qed.

(** * The claims *)

(** ** The outcomes of [handle_request] *)

(** C1, as stated, fails in three ways.  A handler that raises
    [KeyboardInterrupt] ends the coroutine with that signal, which is
    neither a delivery nor a cancellation.  A handler that returns [None]
    has the write callback invoked with [None], which is no response, and
    nothing is cancelled.  And a stream callback that is cancelled while
    it drains the response, at line 203 and so outside the [try], gives a
    run in which a callback was invoked and a cancellation reaches the
    caller. *)
Lemma handle_request_two_outcomes_fails :
  ~ one_of_two_outcomes
      (handle_request python38 (serving interrupted_handler) request0
         returning returning) /\
  ~ one_of_two_outcomes
      (handle_request python38 (serving silent_handler) request0
         returning returning) /\
  (cancellation_raised
     (handle_request python38 (serving streaming_handler) request0
        returning cancelled_callback) /\
   callbacks (trace (handle_request python38 (serving streaming_handler)
                       request0 returning cancelled_callback)) =
     [CallStream stream7]).
Proof.
  split; [|split].
  - intros [[(v & _ & Hcb) _] | [[(e & Hres & Hc) _] _]].
    + vm_compute in Hcb. discriminate.
    + vm_compute in Hres. injection Hres as <-. discriminate.
  - intros [[(v & Hv & Hcb) _] | [[(e & Hres & _) _] _]].
    + destruct v; try discriminate Hv; vm_compute in Hcb; discriminate.
    + vm_compute in Hres. discriminate.
  - split; [|reflexivity]. exists cancellation. now split.
Qed.

(** C1 (amended): every run of [handle_request] ends in exactly one of
    three ways.  (a) The [try] statement is left normally and the
    callback for the response local, which is [None] when nothing
    produced a response, is invoked once: the stream callback for a
    [StreamingHTTPResponse], the write callback otherwise; the coroutine
    ends as that callback does.  (b) The [try] statement raises a
    cancellation, which reaches the caller, and no callback is invoked.
    (c) The [try] statement raises another signal that is not below
    [Exception], which reaches the caller, and no callback is invoked.
    No run invokes a callback twice or both callbacks, and whatever
    reaches the caller of a run that invoked a callback was raised by
    that callback, after the [try] was left normally. *)
Theorem handle_request_outcomes py self req write_callback stream_callback :
  let r := handle_request py self req write_callback stream_callback in
  let p := pipeline py self (entry req) in
  exactly_one (ends_with_callback write_callback stream_callback p r)
              (ends_cancelled p r) (ends_with_signal py p r) /\
  (length (callbacks (trace r)) <= 1)%nat /\
  (forall e, result p = Raises e ->
     callbacks (trace r) = [] /\ result r = Raises e) /\
  (forall e, result r = Raises e -> callbacks (trace r) <> [] ->
     result p = Returns tt /\
     callback_result write_callback stream_callback (response (frame p)) =
       Raises e).
Proof.
  intros r p. unfold r. rewrite handle_request_pipeline. cbv zeta. fold p.
  pose proof (pipeline_emits py self (entry req)) as Hquiet.
  apply emits_no_callbacks in Hquiet. fold p in Hquiet.
  pose proof (pipeline_raises_only_signals py self req) as Hsig.
  fold p in Hsig.
  unfold exactly_one, ends_with_callback, ends_cancelled, ends_with_signal.
  destruct (result p) as [[]|e]; cbn [trace result].
  - pose proof (callbacks_one _ (response (frame p)) Hquiet) as Hone.
    rewrite Hone.
    split; [|split; [simpl; lia|split; [discriminate|now intros e He _]]].
    left. split; [now repeat split|].
    split; intros (e & He & _); discriminate.
  - rewrite Hquiet.
    split; [|split; [simpl; lia|split]].
    + destruct (isinstance_CancelledError e) eqn:Hc.
      * right; left. split; [intros [H _]; discriminate|].
        split; [exists e; now repeat split|].
        intros (e' & [= <-] & H & _). congruence.
      * right; right. split; [intros [H _]; discriminate|].
        split; [intros (e' & [= <-] & H & _); congruence|].
        destruct (Hsig e eq_refl) as [H|H]; [congruence|].
        exists e. now repeat split.
    + intros e' [= <-]. now split.
    + intros e' _ Hne. now contradiction Hne.
Qed.

(** *** Traces past the request middleware *)

Lemma filter_none {A} (P : A -> bool) l :
  Forall (fun x => P x = false) l -> List.filter P l = [].
Proof.
  induction 1 as [|x l Hx _ IH]; [reflexivity|]. simpl. now rewrite Hx.
Qed.

Lemma filter_all {A} (P : A -> bool) l :
  Forall (fun x => P x = true) l -> List.filter P l = l.
Proof.
  induction 1 as [|x l Hx _ IH]; [reflexivity|]. simpl. now rewrite Hx, IH.
Qed.

Lemma past_dispatch_split tr :
  Forall (fun ev => past_dispatch ev = true) tr ->
  List.filter is_request_middleware tr = [] /\ List.filter is_dispatch tr = [].
Proof.
  intros H. split; apply filter_none; eapply Forall_impl; try exact H;
    intros ev Hev; unfold past_dispatch in Hev;
    apply andb_true_iff in Hev as [H1 H2];
    now apply negb_true_iff in H1, H2.
Qed.

Lemma request_calls_filter mws :
  List.filter is_request_middleware (request_calls mws) = request_calls mws /\
  List.filter is_dispatch (request_calls mws) = [].
Proof.
  split; [apply filter_all|apply filter_none];
    unfold request_calls; apply Forall_map, Forall_forall; reflexivity.
Qed.

Lemma callback_for_past_dispatch v : past_dispatch (callback_for v) = true.
Proof. unfold callback_for. now destruct (isinstance_StreamingHTTPResponse v). Qed.

(** Whatever follows the outer [try] is past the dispatch. *)
Lemma handle_request_tail py self req write_callback stream_callback :
  exists tail,
    trace (handle_request py self req write_callback stream_callback) =
      trace (guarded py self (entry req)) ++ tail /\
    Forall (fun ev => past_dispatch ev = true) tail.
Proof.
  pose proof (handle_request_run py self req write_callback stream_callback)
    as Hrun. cbv zeta in Hrun.
  pose proof (finalizer_emits past_dispatch self
                (fun _ _ => eq_refl) (fun _ => eq_refl)
                (frame (guarded py self (entry req)))) as Hfin.
  rewrite Hrun.
  destruct (result (finalizer _ _)) as [[]|e];
    [destruct (result (guarded _ _ _)) as [[]|e]|]; cbn [trace].
  - exists (trace (finalizer self (frame (guarded py self (entry req)))) ++
            [callback_for (response (frame
               (finalizer self (frame (guarded py self (entry req))))))]).
    split; [now rewrite app_assoc|].
    apply Forall_app. split; [exact Hfin|].
    repeat constructor. apply callback_for_past_dispatch.
  - eauto.
  - eauto.
Qed.

(** ** Pre-handler middleware *)

(** C2: the pre-handler runner calls the middleware in list order; the
    first whose resolved result is truthy ends the iteration, its result
    is the pipeline's response, no later middleware is called and neither
    the router nor a handler is; when the list is empty or every result
    is falsy the runner gives [None] and the dispatch runs. *)
Theorem request_middleware_first_truthy_wins py self req write_callback
    stream_callback :
  (forall pre mw post v,
     request_middleware self = pre ++ mw :: post ->
     Forall (fun m => passes (rq_call m (assign_app (name self) req)) = true)
            pre ->
     resolved (rq_call mw (assign_app (name self) req)) = Returns v ->
     truthy v = true ->
     _run_request_middleware self (entered self req) =
       mkRun (request_calls (pre ++ [mw])) (entered self req) (Returns v) /\
     attempt self (entry req) =
       mkRun (request_calls (pre ++ [mw]))
             (mkFrame (assign_app (name self) req) v false) (Returns tt) /\
     List.filter is_request_middleware
       (trace (handle_request py self req write_callback stream_callback)) =
       request_calls (pre ++ [mw]) /\
     List.filter is_dispatch
       (trace (handle_request py self req write_callback stream_callback)) =
       []) /\
  (Forall (fun m => passes (rq_call m (assign_app (name self) req)) = true)
          (request_middleware self) ->
   _run_request_middleware self (entered self req) =
     mkRun (request_calls (request_middleware self)) (entered self req)
           (Returns VNone) /\
   attempt self (entry req) =
     prepend (request_calls (request_middleware self))
             (dispatch self (entered self req))).
Proof.
  split.
  - intros pre mw post v Hl Hpre Hv Ht.
    pose proof (attempt_short_circuit self req pre mw post v Hl Hpre Hv Ht)
      as Hattempt.
    split; [|split; [exact Hattempt|]].
    + rewrite run_request_middleware_loop, Hl.
      rewrite request_middleware_loop_app by exact Hpre.
      rewrite (request_middleware_loop_first _ _ _ v) by assumption.
      unfold prepend, request_calls; simpl. now rewrite map_app.
    + destruct (handle_request_tail py self req write_callback
                  stream_callback) as (tail & Htr & Htail).
      rewrite Htr, guarded_returns, Hattempt by now rewrite Hattempt.
      cbn [trace]. rewrite !List.filter_app.
      destruct (past_dispatch_split _ Htail) as [-> ->].
      destruct (request_calls_filter (pre ++ [mw])) as [-> ->].
      now rewrite !app_nil_r.
  - intros Hall. split; [|now apply attempt_dispatches].
    rewrite run_request_middleware_loop.
    now apply request_middleware_loop_all.
Qed.

Lemma request_middleware_first_truthy_wins_witness :
  (attempt (with_request_middleware [rq_continue; rq_deny; rq_late]
              (serving hello_handler)) (entry request0) =
     mkRun [CallRequestMiddleware 0; CallRequestMiddleware 1]
           (mkFrame (assign_app "app" request0) deny false) (Returns tt) /\
   List.filter is_dispatch
     (trace (handle_request python38
               (with_request_middleware [rq_continue; rq_deny; rq_late]
                  (serving hello_handler)) request0 returning returning)) =
     []) /\
  attempt (with_request_middleware [rq_continue] (serving hello_handler))
          (entry request0) =
    prepend [CallRequestMiddleware 0]
      (dispatch (with_request_middleware [rq_continue] (serving hello_handler))
         (entered (with_request_middleware [rq_continue]
                     (serving hello_handler)) request0)).
Proof.
  split.
  - destruct (request_middleware_first_truthy_wins python38
                (with_request_middleware [rq_continue; rq_deny; rq_late]
                   (serving hello_handler)) request0 returning returning)
      as [Hfirst _].
    destruct (Hfirst [rq_continue] rq_deny [rq_late] deny)
      as (_ & Hattempt & _ & Hdispatch);
      [reflexivity|repeat constructor|reflexivity|reflexivity|].
    split; [exact Hattempt|exact Hdispatch].
  - destruct (request_middleware_first_truthy_wins python38
                (with_request_middleware [rq_continue] (serving hello_handler))
                request0 returning returning) as [_ Hall].
    destruct Hall as [_ Hattempt]; [repeat constructor|].
    exact Hattempt.
Defined.

(** ** Post-handler middleware *)

(** C3: the post-handler runner calls the middleware in list order, each
    with the request and the response it was given; the first whose
    resolved result is non-empty replaces the response and ends the
    iteration; when none does the response comes back unchanged; and the
    [finally] clause does not run the runner on an absent response. *)
Theorem response_middleware_first_replacement_wins self f v :
  (forall pre mw post u,
     response_middleware self = pre ++ mw :: post ->
     Forall (fun m => passes (rs_call m (request f) v) = true) pre ->
     resolved (rs_call mw (request f) v) = Returns u ->
     truthy u = true ->
     _run_response_middleware self v f =
       mkRun (response_calls (pre ++ [mw]) v) f (Returns u)) /\
  (Forall (fun m => passes (rs_call m (request f) v) = true)
          (response_middleware self) ->
   _run_response_middleware self v f =
     mkRun (response_calls (response_middleware self) v) f (Returns v)) /\
  (response f = VNone ->
   finalizer self f =
     mkRun [] f (if cancelled f then Raises cancellation else Returns tt)).
Proof.
  split; [|split].
  - intros pre mw post u Hl Hpre Hu Ht.
    rewrite run_response_middleware_loop, Hl.
    rewrite response_middleware_loop_app by exact Hpre.
    rewrite (response_middleware_loop_first _ _ _ _ u) by assumption.
    unfold prepend, response_calls; simpl. now rewrite map_app.
  - intros Hall. rewrite run_response_middleware_loop.
    now apply response_middleware_loop_all.
  - apply finalizer_absent.
Qed.

Lemma response_middleware_first_replacement_wins_witness :
  _run_response_middleware
    (with_response_middleware [rs_continue; rs_replace; rs_late]
       (serving hello_handler)) hello (mkFrame request0 hello false) =
    mkRun [CallResponseMiddleware 0 hello; CallResponseMiddleware 1 hello]
          (mkFrame request0 hello false) (Returns teapot) /\
  _run_response_middleware
    (with_response_middleware [rs_continue] (serving hello_handler))
    hello (mkFrame request0 hello false) =
    mkRun [CallResponseMiddleware 0 hello]
          (mkFrame request0 hello false) (Returns hello) /\
  finalizer (with_response_middleware [rs_replace] (serving hello_handler))
            (entry request0) =
    mkRun [] (entry request0) (Returns tt).
Proof.
  split; [|split].
  - destruct (response_middleware_first_replacement_wins
                (with_response_middleware [rs_continue; rs_replace; rs_late]
                   (serving hello_handler))
                (mkFrame request0 hello false) hello) as [Hfirst _].
    apply (Hfirst [rs_continue] rs_replace [rs_late] teapot);
      [reflexivity|repeat constructor|reflexivity|reflexivity].
  - destruct (response_middleware_first_replacement_wins
                (with_response_middleware [rs_continue] (serving hello_handler))
                (mkFrame request0 hello false) hello) as (_ & Hall & _).
    apply Hall. repeat constructor.
  - destruct (response_middleware_first_replacement_wins
                (with_response_middleware [rs_replace] (serving hello_handler))
                (entry request0) hello) as (_ & _ & Habsent).
    apply Habsent. reflexivity.
Defined.

(** ** Handler dispatch *)

Lemma attempt_found self req get h args kwargs uri :
  Forall (fun m => passes (rq_call m (assign_app (name self) req)) = true)
         (request_middleware self) ->
  router self = Some get ->
  get (assign_app (name self) req) = Returns (Some h, args, kwargs, uri) ->
  attempt self (entry req) =
  prepend (request_calls (request_middleware self) ++ [CallRouterGet])
          (run_handler h args kwargs (routed self h uri (entered self req))).
Proof.
  intros Hall Hr Hg. rewrite attempt_dispatches by exact Hall.
  rewrite (dispatch_found self get h args kwargs uri) by assumption.
  now rewrite prepend_prepend.
Qed.

(** C4: an immediate handler result is the pipeline's response as it is;
    a suspended one is awaited and rebuilt into an [HTTPResponse] from its
    [body()], [status()] and [context().GetResponseHeaders()], with the
    content type read from the headers' "Content-Type" entry. *)
Theorem handler_result_normalised py self req get h args kwargs uri :
  Forall (fun m => passes (rq_call m (assign_app (name self) req)) = true)
         (request_middleware self) ->
  router self = Some get ->
  get (assign_app (name self) req) = Returns (Some h, args, kwargs, uri) ->
  let f := routed self h uri (entered self req) in
  (forall v,
     h_call h (request f) args kwargs = Returns v ->
     isawaitable v = false ->
     guarded py self (entry req) =
       mkRun (request_calls (request_middleware self) ++
              [CallRouterGet; CallHandler (h_name h)])
             (mkFrame (request f) v false) (Returns tt)) /\
  (forall b s hd,
     h_call h (request f) args kwargs =
       Returns (VAwaitable (Returns (VResult b s hd))) ->
     guarded py self (entry req) =
       mkRun (request_calls (request_middleware self) ++
              [CallRouterGet; CallHandler (h_name h);
               LogInfo "got response from function"])
             (mkFrame (request f)
                (VHTTPResponse
                   (mkHTTPResponse b s (Passed hd)
                      (Passed (hd !! "Content-Type"))))
                false)
             (Returns tt)).
Proof.
  intros Hall Hr Hg f.
  pose proof (attempt_found self req get h args kwargs uri Hall Hr Hg)
    as Hattempt. fold f in Hattempt.
  split.
  - intros v Hc Ha.
    rewrite (run_handler_immediate _ _ _ _ v Hc Ha) in Hattempt.
    rewrite guarded_returns, Hattempt by now rewrite Hattempt.
    unfold prepend; simpl. now rewrite <- app_assoc.
  - intros b s hd Hc.
    rewrite (run_handler_suspended _ _ _ _ b s hd Hc) in Hattempt.
    rewrite guarded_returns, Hattempt by now rewrite Hattempt.
    unfold prepend; simpl. now rewrite <- app_assoc.
Qed.

Lemma handler_result_normalised_witness :
  response (frame (guarded python38 (serving hello_handler) (entry request0)))
    = hello /\
  response (frame (guarded python38 (serving suspended_handler)
                     (entry request0))) =
    VHTTPResponse
      (mkHTTPResponse "ok" 201 (Passed {[ "Content-Type" := "text/plain" ]})
         (Passed (Some "text/plain"))).
Proof.
  split.
  - destruct (handler_result_normalised python38 (serving hello_handler)
                request0 (fun _ => Returns (Some hello_handler, [], [], "/"))
                hello_handler [] [] "/") as [Himmediate _];
      [constructor|reflexivity|reflexivity|].
    rewrite (Himmediate hello); reflexivity.
  - destruct (handler_result_normalised python38 (serving suspended_handler)
                request0
                (fun _ => Returns (Some suspended_handler, [], [], "/"))
                suspended_handler [] [] "/") as [_ Hsuspended];
      [constructor|reflexivity|reflexivity|].
    rewrite (Hsuspended "ok" 201 {[ "Content-Type" := "text/plain" ]});
      reflexivity.
Defined.

(** ** The recovery cascade *)

Lemma recover_run py self e f :
  let o := eh_response (error_handler self) (request f) e in
  recover py self e f =
  match resolved o with
  | Returns v =>
      mkRun [LogError "Exception: "; CallErrorResponse e]
            (mkFrame (request f) v (cancelled f)) (Returns tt)
  | Raises e2 =>
      if isinstance_Exception py e2 then
        mkRun ([LogError "Exception: "; CallErrorResponse e] ++
               secondary_calls py e2)
              (mkFrame (request f) (secondary_response py self (request f) e2)
                       (cancelled f))
              (Returns tt)
      else
        mkRun [LogError "Exception: "; CallErrorResponse e]
              (mkFrame (request f) (stale_response o (response f)) (cancelled f))
              (Raises e2)
  end.
Proof.
  intros o. unfold recover. rewrite bind_run. cbn [emit result trace frame].
  unfold try_except, call_error_response. rewrite bind_run.
  cbn [call result trace frame]. fold o.
  unfold secondary_response, secondary_calls, call_error_default.
  destruct f as [rq rs c]. cbn [request response cancelled] in *.
  destruct o as [v|e2]; cbn [resolved].
  - destruct v as [ | | | | |[a|e2]]; try reflexivity.
    cbn. destruct (isinstance_Exception py e2); [|reflexivity].
    destruct (isinstance_AsyncHTTPException py e2); [reflexivity|].
    destruct (debug self); reflexivity.
  - cbn. destruct (isinstance_Exception py e2); [|reflexivity].
    destruct (isinstance_AsyncHTTPException py e2); [reflexivity|].
    destruct (debug self); reflexivity.
Qed.

(** ** From the outer [try] to the callbacks *)

(** The run of [handle_request] once the outer [try] was left normally
    and without the flag: the Done(response) state of the cascade. *)
Lemma done_run py self req write_callback stream_callback :
  let g := guarded py self (entry req) in
  let run := _run_response_middleware self (response (frame g)) (frame g) in
  result g = Returns tt ->
  cancelled (frame g) = false ->
  handle_request py self req write_callback stream_callback =
  if is_not_None (response (frame g)) then
    match result run with
    | Returns r =>
        mkRun ((trace g ++ trace run) ++ [callback_for r])
              (mkFrame (request (frame g)) r false)
              (callback_result write_callback stream_callback r)
    | Raises e =>
        if isinstance_CancelledError e then
          mkRun (trace g ++ trace run)
                (mkFrame (request (frame g)) VNone true) (Raises cancellation)
        else
          mkRun ((trace g ++ trace run ++ [middleware_failure]) ++
                 [callback_for (response (frame g))])
                (frame g)
                (callback_result write_callback stream_callback
                   (response (frame g)))
    end
  else
    mkRun (trace g ++ [CallWrite VNone]) (frame g) (write_callback VNone).
Proof.
  intros g run Hg Hc.
  pose proof (handle_request_run py self req write_callback stream_callback)
    as Hrun. cbv zeta in Hrun.
  fold g in Hrun. rewrite Hrun, Hg. clear Hrun.
  destruct (is_not_None (response (frame g))) eqn:Hr.
  - rewrite (finalizer_present _ _ Hr). cbv zeta. fold run. rewrite Hc.
    destruct (result run) as [r|e]; [reflexivity|].
    destruct (isinstance_CancelledError e); reflexivity.
  - apply is_not_None_false in Hr.
    rewrite (finalizer_absent _ _ Hr), Hc. cbn. rewrite Hr.
    now rewrite app_nil_r.
Qed.

(** ** A router without a handler *)

Lemma recover_cascade py self e f v calls :
  cascade_gives py self (request f)
    (resolved (eh_response (error_handler self) (request f) e)) v calls ->
  recover py self e f =
  mkRun ([LogError "Exception: "; CallErrorResponse e] ++ calls)
        (mkFrame (request f) v (cancelled f)) (Returns tt).
Proof.
  intros Hgives. rewrite recover_run. cbv zeta.
  destruct Hgives as [[-> ->]|(e2 & -> & He2 & _ & -> & ->)];
    [reflexivity|].
  rewrite He2. unfold secondary_response, secondary_calls, response_500.
  reflexivity.
Qed.

(** C5, as stated, fails in two ways.  The response built for the
    configuration fault is dropped when the post-handler middleware is
    cancelled, and no callback is invoked; and when the error handler's
    mapping returns [None] the write callback is invoked with [None],
    which is no response. *)
Lemma no_handler_not_always_delivered :
  (exists get args kwargs uri,
     router (with_response_middleware [rs_cancelled] unrouted) = Some get /\
     get (assign_app "app" request0) = Returns (None, args, kwargs, uri)) /\
  ~ response_delivered
      (handle_request python38
         (with_response_middleware [rs_cancelled] unrouted)
         request0 returning returning) /\
  ~ response_delivered
      (handle_request python37
         (with_response_middleware [rs_cancelled] unrouted)
         request0 returning returning) /\
  (exists get args kwargs uri,
     router unrouted_unanswered = Some get /\
     get (assign_app "app" request0) = Returns (None, args, kwargs, uri)) /\
  ~ response_delivered
      (handle_request python38 unrouted_unanswered request0
         returning returning).
Proof.
  split; [|split; [|split; [|split]]].
  - now eexists _, _, _, _.
  - intros (v & _ & Hcb). vm_compute in Hcb. discriminate.
  - intros (v & _ & Hcb). vm_compute in Hcb. discriminate.
  - now eexists _, _, _, _.
  - intros (v & Hv & Hcb).
    destruct v; try discriminate Hv; vm_compute in Hcb; discriminate.
Qed.

(** C5 (amended): when the pre-handler chain gives no response and the
    router gives no handler, [handle_request] raises a [ServerError],
    which the outer [try] hands to the recovery cascade, and the [try]
    statement never lets a [ServerError] out.  When the error handler's
    mapping gives a value, or raises an exception that is not a
    cancellation, the cascade logs the fault, calls the mapping with it
    and leaves as the response the mapping's value or the secondary
    response.  That response, when it is not [None], goes through the
    post-handler middleware and their result is handed to its callback,
    once; when a middleware fails otherwise than by cancellation the
    response itself is handed over; when one is cancelled the response
    is dropped, no callback is invoked and a [CancelledError] is raised;
    and a response that is [None] is handed to the write callback. *)
Theorem no_handler_is_recovered py self req write_callback stream_callback
    get args kwargs uri :
  Forall (fun m => passes (rq_call m (assign_app (name self) req)) = true)
         (request_middleware self) ->
  router self = Some get ->
  get (assign_app (name self) req) = Returns (None, args, kwargs, uri) ->
  let rq := assign_uri_template uri (assign_app (name self) req) in
  let looked_up := request_calls (request_middleware self) ++ [CallRouterGet] in
  attempt self (entry req) =
    mkRun looked_up (mkFrame rq VNone false) (Raises server_error) /\
  exc_type server_error = ServerError /\
  guarded py self (entry req) =
    prepend looked_up (recover py self server_error (mkFrame rq VNone false)) /\
  (forall e, result (pipeline py self (entry req)) = Raises e ->
             exc_type e <> ServerError) /\
  (forall v calls,
     cascade_gives py self rq
       (resolved (eh_response (error_handler self) rq server_error)) v calls ->
     let recovered :=
       looked_up ++
       [LogError "Exception: "; CallErrorResponse server_error] ++ calls in
     let fv := mkFrame rq v false in
     let run := _run_response_middleware self v fv in
     guarded py self (entry req) = mkRun recovered fv (Returns tt) /\
     handle_request py self req write_callback stream_callback =
       if is_not_None v then
         match result run with
         | Returns u =>
             mkRun (recovered ++ trace run ++ [callback_for u])
                   (mkFrame rq u false)
                   (callback_result write_callback stream_callback u)
         | Raises e =>
             if isinstance_CancelledError e then
               mkRun (recovered ++ trace run) (mkFrame rq VNone true)
                     (Raises cancellation)
             else
               mkRun (recovered ++ trace run ++
                      [middleware_failure; callback_for v])
                     fv (callback_result write_callback stream_callback v)
         end
       else
         mkRun (recovered ++ [CallWrite VNone]) fv (write_callback VNone)).
Proof.
  intros Hall Hr Hg rq looked_up.
  assert (Hattempt : attempt self (entry req) =
            mkRun looked_up (mkFrame rq VNone false) (Raises server_error)).
  { rewrite attempt_dispatches by exact Hall.
    now rewrite (dispatch_no_handler self get args kwargs uri). }
  assert (Hguarded : guarded py self (entry req) =
            prepend looked_up
                    (recover py self server_error (mkFrame rq VNone false))).
  { rewrite (guarded_recovers py self (entry req) server_error);
      rewrite ?Hattempt; reflexivity. }
  split; [exact Hattempt|]. split; [reflexivity|]. split; [exact Hguarded|].
  split.
  - intros e He Hcls. apply pipeline_raises_only_signals in He.
    unfold isinstance_CancelledError, isinstance_Exception in He.
    rewrite Hcls in He. destruct He; discriminate.
  - intros v calls Hgives recovered fv run.
    assert (Hdone : guarded py self (entry req) =
              mkRun recovered fv (Returns tt)).
    { rewrite Hguarded.
      rewrite (recover_cascade py self server_error (mkFrame rq VNone false)
                 v calls Hgives).
      unfold prepend, recovered. cbn [trace frame result request cancelled].
      reflexivity. }
    split; [exact Hdone|].
    pose proof (done_run py self req write_callback stream_callback) as Hrun.
    cbv zeta in Hrun. rewrite Hdone in Hrun.
    cbn [result frame trace] in Hrun. specialize (Hrun eq_refl eq_refl).
    change (response fv) with v in Hrun.
    change (request fv) with rq in Hrun.
    fold run in Hrun. rewrite Hrun.
    destruct (is_not_None v); [|reflexivity].
    destruct (result run) as [u|e]; [now rewrite <- !app_assoc|].
    destruct (isinstance_CancelledError e); [reflexivity|].
    now rewrite <- !app_assoc.
Qed.

Lemma no_handler_is_recovered_witness :
  handle_request python38 unrouted request0 returning returning =
  mkRun [CallRouterGet; LogError "Exception: "; CallErrorResponse server_error;
         CallWrite (VHTTPResponse
           (mkHTTPResponse (exc_str server_error) 500 Omitted Omitted))]
        (mkFrame (mkRequest 0 (Some "app") (Some "/missing") None)
           (VHTTPResponse
              (mkHTTPResponse (exc_str server_error) 500 Omitted Omitted))
           false)
        (Returns tt).
Proof.
  destruct (no_handler_is_recovered python38 unrouted request0
              returning returning
              (fun _ => Returns (None, [], [], "/missing")) [] [] "/missing"
              ltac:(constructor) eq_refl eq_refl)
    as (_ & _ & _ & _ & Hconverted).
  destruct (Hconverted
              (VHTTPResponse
                 (mkHTTPResponse (exc_str server_error) 500 Omitted Omitted))
              []) as [_ Hrun].
  - left. split; reflexivity.
  - rewrite Hrun. reflexivity.
Defined.

(** ** Secondary recovery *)

(** C6: when the attempt raises an exception and the error handler's
    mapping raises a second one, the response is the error handler's
    default for the second exception if that is an [AsyncHTTPException];
    otherwise, with [debug] set, a 500 [HTTPResponse] whose body carries
    the second exception's message and the formatted trace; otherwise a
    500 [HTTPResponse] with the fixed body. *)
Theorem secondary_recovery_response py self f e1 e2 :
  result (attempt self f) = Raises e1 ->
  isinstance_CancelledError e1 = false ->
  isinstance_Exception py e1 = true ->
  resolved (eh_response (error_handler self)
              (request (frame (attempt self f))) e1) = Raises e2 ->
  isinstance_Exception py e2 = true ->
  result (guarded py self f) = Returns tt /\
  response (frame (guarded py self f)) =
    (if isinstance_AsyncHTTPException py e2 then
       eh_default (error_handler self) (request (frame (attempt self f))) e2
     else if debug self then
       VHTTPResponse (mkHTTPResponse (debug_body py e2) 500 Omitted Omitted)
     else
       VHTTPResponse (mkHTTPResponse opaque_body 500 Omitted Omitted)) /\
  debug_body py e2 =
    "Error while handling error: " +:+ exc_str e2 +:+
    String (Ascii.ascii_of_nat 10) "Stack: " +:+ format_exc py e2 /\
  opaque_body = "An error occurred while handling an error".
Proof.
  intros Ha Hc1 He1 Hmap He2.
  rewrite (guarded_recovers py self f e1 Ha Hc1 He1).
  pose proof (recover_run py self e1 (frame (attempt self f))) as Hrun.
  cbv zeta in Hrun. rewrite Hmap, He2 in Hrun. rewrite Hrun.
  unfold prepend. cbn [result frame response]. unfold secondary_response.
  split; [reflexivity|]. split; [|split; reflexivity].
  destruct (isinstance_AsyncHTTPException py e2); [reflexivity|].
  destruct (debug self); reflexivity.
Qed.

Lemma secondary_recovery_response_witness :
  response (frame (guarded python38
     (doubly_failing false (Raises (mkExn OtherException "again")))
     (entry request0))) =
    VHTTPResponse (mkHTTPResponse "An error occurred while handling an error"
                     500 Omitted Omitted) /\
  response (frame (guarded python38
     (doubly_failing true (Returns (VAwaitable
        (Raises (mkExn AsyncHTTPException "not found")))))
     (entry request0))) =
    VHTTPResponse (mkHTTPResponse "not found" 400 Omitted Omitted).
Proof.
  split.
  - destruct (secondary_recovery_response python38
                (doubly_failing false (Raises (mkExn OtherException "again")))
                (entry request0) boom (mkExn OtherException "again")
                eq_refl eq_refl eq_refl eq_refl eq_refl)
      as (_ & Hresponse & _).
    exact Hresponse.
  - destruct (secondary_recovery_response python38
                (doubly_failing true (Returns (VAwaitable
                   (Raises (mkExn AsyncHTTPException "not found")))))
                (entry request0) boom (mkExn AsyncHTTPException "not found")
                eq_refl eq_refl eq_refl eq_refl eq_refl)
      as (_ & Hresponse & _).
    exact Hresponse.
Defined.

(** ** Cancellation during recovery *)

(** C7 does not hold of the inner [try] of the recovery clause, which
    has no [except CancelledError].  Where [CancelledError] is an
    [Exception] the cancellation is turned into the opaque 500 response,
    which goes through the post-handler middleware and is written; where
    it is not, it reaches the caller, but the flag is not raised and the
    post-handler middleware is still run, on the stale awaitable. *)
Theorem cancellation_in_recovery_not_gated :
  (trace (handle_request python37 cancelled_in_recovery request0
            returning returning) =
     [CallRouterGet; CallHandler "index"; LogError "Exception: ";
      CallErrorResponse boom;
      CallResponseMiddleware 0 (response_500 opaque_body);
      CallWrite (response_500 opaque_body)] /\
   result (handle_request python37 cancelled_in_recovery request0
             returning returning) = Returns tt) /\
  (trace (handle_request python38 cancelled_in_recovery request0
            returning returning) =
     [CallRouterGet; CallHandler "index"; LogError "Exception: ";
      CallErrorResponse boom;
      CallResponseMiddleware 0 (VAwaitable (Raises cancellation))] /\
   result (handle_request python38 cancelled_in_recovery request0
             returning returning) = Raises cancellation /\
   cancelled (frame (handle_request python38 cancelled_in_recovery request0
                       returning returning)) = false).
Proof. repeat split; vm_compute; reflexivity. Qed.

(** ** Failures of the post-handler middleware *)

Lemma done_flag py self req :
  is_not_None (response (frame (guarded py self (entry req)))) = true ->
  cancelled (frame (guarded py self (entry req))) = false.
Proof.
  intros Hr.
  destruct (cancelled (frame (guarded py self (entry req)))) eqn:Hc;
    [|reflexivity].
  apply guarded_cancelled_drops in Hc; [|reflexivity].
  rewrite Hc in Hr. discriminate.
Qed.

Lemma run_response_middleware_head self mw rest v f :
  response_middleware self = mw :: rest ->
  exists tail,
    trace (_run_response_middleware self v f) =
    CallResponseMiddleware (rs_id mw) v :: tail.
Proof.
  intros Hl. rewrite run_response_middleware_loop, Hl. simpl.
  unfold call_response_middleware. rewrite call_resolve.
  destruct (resolved _) as [u|e]; [|now eexists].
  unfold prepend. cbn [trace]. now eexists.
Qed.

(** C8: out of the Done(response) state with a response present, the
    post-handler runner is run on that response; when a cancellation
    comes out of it the response is dropped, no callback is invoked and
    a cancellation is raised; when any other exception comes out of it
    the failure is logged and the response computed before is handed to
    its callback. *)
Theorem post_middleware_failures py self req write_callback stream_callback :
  let g := guarded py self (entry req) in
  let run := _run_response_middleware self (response (frame g)) (frame g) in
  result g = Returns tt ->
  is_not_None (response (frame g)) = true ->
  (exists tail,
     trace (handle_request py self req write_callback stream_callback) =
       trace g ++ trace run ++ tail /\
     Forall (fun ev => is_response_middleware ev = false) tail) /\
  (forall mw rest, response_middleware self = mw :: rest ->
     exists tail,
       trace run =
       CallResponseMiddleware (rs_id mw) (response (frame g)) :: tail) /\
  (forall e, result run = Raises e -> isinstance_CancelledError e = true ->
     let r := handle_request py self req write_callback stream_callback in
     result r = Raises cancellation /\
     isinstance_CancelledError cancellation = true /\
     callbacks (trace r) = [] /\
     response (frame r) = VNone) /\
  (forall e, result run = Raises e -> isinstance_CancelledError e = false ->
     handle_request py self req write_callback stream_callback =
       mkRun (trace g ++ trace run ++
              [middleware_failure; callback_for (response (frame g))])
             (frame g)
             (callback_result write_callback stream_callback
                (response (frame g)))).
Proof.
  intros g run Hg Hr.
  pose proof (done_run py self req write_callback stream_callback Hg
                (done_flag py self req Hr)) as Hrun.
  cbv zeta in Hrun. fold g in Hrun. fold run in Hrun. rewrite Hr in Hrun.
  pose proof (emits_no_callbacks _ (guarded_emits py self (entry req)))
    as Hquiet. fold g in Hquiet.
  pose proof (run_response_middleware_emits not_callback self
                (response (frame g)) (fun _ _ => eq_refl) (frame g)) as Hmw.
  apply emits_no_callbacks in Hmw. fold run in Hmw.
  split; [|split; [|split]].
  - rewrite Hrun. destruct (result run) as [r|e].
    + exists [callback_for r]. cbn [trace]. split; [now rewrite <- app_assoc|].
      repeat constructor. unfold callback_for.
      now destruct (isinstance_StreamingHTTPResponse r).
    + destruct (isinstance_CancelledError e); cbn [trace].
      * exists []. split; [now rewrite app_nil_r|constructor].
      * exists [middleware_failure; callback_for (response (frame g))].
        split; [now rewrite <- !app_assoc|].
        repeat constructor. unfold callback_for.
        now destruct (isinstance_StreamingHTTPResponse _).
  - intros mw rest Hl. now apply (run_response_middleware_head self mw rest).
  - intros e He Hc. cbv zeta. rewrite Hrun, He, Hc.
    cbn [result trace frame response].
    repeat split. now rewrite callbacks_app, Hquiet, Hmw.
  - intros e He Hc. rewrite Hrun, He, Hc. now rewrite <- !app_assoc.
Qed.

Lemma post_middleware_failures_witness :
  (result (handle_request python38
             (with_response_middleware [rs_cancelled] (serving hello_handler))
             request0 returning returning) = Raises cancellation /\
   callbacks (trace (handle_request python38
             (with_response_middleware [rs_cancelled] (serving hello_handler))
             request0 returning returning)) = []) /\
  handle_request python38
    (with_response_middleware [rs_broken] (serving hello_handler))
    request0 returning returning =
  mkRun [CallRouterGet; CallHandler "index"; CallResponseMiddleware 4 hello;
         middleware_failure; CallWrite hello]
        (mkFrame (mkRequest 0 (Some "app") (Some "/") (Some "app.index"))
                 hello false)
        (Returns tt).
Proof.
  split.
  - destruct (post_middleware_failures python38
                (with_response_middleware [rs_cancelled] (serving hello_handler))
                request0 returning returning eq_refl eq_refl)
      as (_ & _ & Hcancel & _).
    destruct (Hcancel cancellation eq_refl eq_refl) as (Hres & _ & Hcb & _).
    split; [exact Hres|exact Hcb].
  - destruct (post_middleware_failures python38
                (with_response_middleware [rs_broken] (serving hello_handler))
                request0 returning returning eq_refl eq_refl)
      as (_ & _ & _ & Hother).
    rewrite (Hother boom eq_refl eq_refl). reflexivity.
Defined.

(** ** A handler that returns [None] *)

(** C9: when the pre-handler chain gives no response and the handler
    returns [None] at once, the [try] statement is left with nothing
    raised and nothing cancelled, no post-handler middleware is called,
    and the write callback is invoked once, with [None]; its ending is
    the coroutine's. *)
Theorem handler_returning_none py self req write_callback stream_callback
    get h args kwargs uri :
  Forall (fun m => passes (rq_call m (assign_app (name self) req)) = true)
         (request_middleware self) ->
  router self = Some get ->
  get (assign_app (name self) req) = Returns (Some h, args, kwargs, uri) ->
  let f := routed self h uri (entered self req) in
  h_call h (request f) args kwargs = Returns VNone ->
  result (pipeline py self (entry req)) = Returns tt /\
  cancelled (frame (pipeline py self (entry req))) = false /\
  handle_request py self req write_callback stream_callback =
    mkRun (request_calls (request_middleware self) ++
           [CallRouterGet; CallHandler (h_name h); CallWrite VNone])
          f (write_callback VNone) /\
  List.filter is_response_middleware
    (trace (handle_request py self req write_callback stream_callback)) = [] /\
  callbacks (trace (handle_request py self req write_callback stream_callback))
    = [CallWrite VNone].
Proof.
  intros Hall Hr Hg f Hc.
  pose proof (attempt_found self req get h args kwargs uri Hall Hr Hg)
    as Hattempt. fold f in Hattempt.
  rewrite (run_handler_immediate _ _ _ _ VNone Hc eq_refl) in Hattempt.
  assert (Hguarded : guarded py self (entry req) =
            mkRun (request_calls (request_middleware self) ++
                   [CallRouterGet; CallHandler (h_name h)]) f (Returns tt)).
  { rewrite guarded_returns, Hattempt by now rewrite Hattempt.
    unfold prepend; simpl. now rewrite <- app_assoc. }
  assert (Hpipe : pipeline py self (entry req) =
            mkRun (request_calls (request_middleware self) ++
                   [CallRouterGet; CallHandler (h_name h)]) f (Returns tt)).
  { rewrite pipeline_run. unfold try_finally. rewrite Hguarded.
    cbn [frame trace result].
    rewrite (finalizer_absent self f eq_refl). cbn.
    now rewrite app_nil_r. }
  assert (Hrun : handle_request py self req write_callback stream_callback =
            mkRun (request_calls (request_middleware self) ++
                   [CallRouterGet; CallHandler (h_name h); CallWrite VNone])
                  f (write_callback VNone)).
  { rewrite handle_request_pipeline. cbv zeta. rewrite Hpipe.
    cbn. now rewrite <- app_assoc. }
  split; [now rewrite Hpipe|]. split; [now rewrite Hpipe|].
  split; [exact Hrun|]. rewrite Hrun. cbn [trace]. split.
  - rewrite List.filter_app. cbn.
    rewrite filter_none; [reflexivity|].
    unfold request_calls. apply Forall_map, Forall_forall. reflexivity.
  - unfold callbacks. rewrite List.filter_app. cbn.
    rewrite filter_none; [reflexivity|].
    unfold request_calls. apply Forall_map, Forall_forall. reflexivity.
Qed.

Lemma handler_returning_none_witness :
  handle_request python38 (serving silent_handler) request0
    returning returning =
  mkRun [CallRouterGet; CallHandler "ping"; CallWrite VNone]
        (mkFrame (mkRequest 0 (Some "app") (Some "/") (Some "app.ping"))
                 VNone false)
        (Returns tt).
Proof.
  destruct (handler_returning_none python38 (serving silent_handler) request0
              returning returning
              (fun _ => Returns (Some silent_handler, [], [], "/"))
              silent_handler [] [] "/"
              ltac:(constructor) eq_refl eq_refl eq_refl)
    as (_ & _ & Hrun & _).
  rewrite Hrun. reflexivity.
Defined.

(** ** Signals in the post-handler middleware *)

(** C10: a post-handler middleware that raises anything but a
    cancellation, a signal outside [Exception] included, has its failure
    logged, and the response computed before is still handed to its
    callback, whose ending is the coroutine's: the signal does not reach
    the caller. *)
Theorem post_middleware_signal_swallowed py self req write_callback
    stream_callback pre mw post e :
  let g := guarded py self (entry req) in
  result g = Returns tt ->
  is_not_None (response (frame g)) = true ->
  response_middleware self = pre ++ mw :: post ->
  Forall (fun m => passes (rs_call m (request (frame g)) (response (frame g)))
                   = true) pre ->
  resolved (rs_call mw (request (frame g)) (response (frame g))) = Raises e ->
  isinstance_CancelledError e = false ->
  result (pipeline py self (entry req)) = Returns tt /\
  handle_request py self req write_callback stream_callback =
    mkRun (trace g ++
           response_calls (pre ++ [mw]) (response (frame g)) ++
           [middleware_failure; callback_for (response (frame g))])
          (frame g)
          (callback_result write_callback stream_callback
             (response (frame g))).
Proof.
  intros g Hg Hr Hl Hpre He Hc.
  pose proof (done_run py self req write_callback stream_callback Hg
                (done_flag py self req Hr)) as Hrun.
  cbv zeta in Hrun. fold g in Hrun. rewrite Hr in Hrun.
  assert (Hmw : _run_response_middleware self (response (frame g)) (frame g) =
            mkRun (response_calls (pre ++ [mw]) (response (frame g)))
                  (frame g) (Raises e)).
  { rewrite run_response_middleware_loop, Hl.
    rewrite response_middleware_loop_app by exact Hpre.
    rewrite (response_middleware_loop_raises _ _ _ _ e) by exact He.
    unfold prepend, response_calls; simpl. now rewrite map_app. }
  rewrite Hmw in Hrun. cbn [result trace] in Hrun. rewrite Hc in Hrun.
  split.
  - pose proof (done_flag py self req Hr) as Hflag. fold g in Hflag.
    rewrite pipeline_run. unfold try_finally. fold g. cbn [result].
    rewrite (finalizer_present _ _ Hr). cbv zeta. rewrite Hmw.
    cbn [result]. rewrite Hc, Hflag. cbn [result].
    exact Hg.
  - rewrite Hrun. now rewrite <- !app_assoc.
Qed.

Lemma post_middleware_signal_swallowed_witness :
  handle_request python38
    (with_response_middleware [rs_continue; rs_interrupted; rs_late]
       (serving hello_handler)) request0 returning returning =
  mkRun [CallRouterGet; CallHandler "index"; CallResponseMiddleware 0 hello;
         CallResponseMiddleware 5 hello; middleware_failure; CallWrite hello]
        (mkFrame (mkRequest 0 (Some "app") (Some "/") (Some "app.index"))
                 hello false)
        (Returns tt).
Proof.
  destruct (post_middleware_signal_swallowed python38
              (with_response_middleware [rs_continue; rs_interrupted; rs_late]
                 (serving hello_handler)) request0 returning returning
              [rs_continue] rs_interrupted [rs_late]
              (mkExn OtherBaseException "KeyboardInterrupt")
              eq_refl eq_refl eq_refl
              ltac:(repeat constructor) eq_refl eq_refl) as [_ Hrun].
  rewrite Hrun. reflexivity.
Defined.

(** * Further properties *)

(** ** The request across the run *)

Lemma keeps_attr_ret {A B} (g : Request -> B) (a : A) : keeps_attr g (ret a).
Proof. intros f. reflexivity. Qed.

Lemma keeps_attr_raise {A B} (g : Request -> B) e : keeps_attr g (@raise A e).
Proof. intros f. reflexivity. Qed.

Lemma keeps_attr_emit {B} (g : Request -> B) ev : keeps_attr g (emit ev).
Proof. intros f. reflexivity. Qed.

Lemma keeps_attr_call {A B} (g : Request -> B) ev (o : Frame -> outcome A) :
  keeps_attr g (call ev o).
Proof. intros f. reflexivity. Qed.

Lemma keeps_attr_set_response {B} (g : Request -> B) v :
  keeps_attr g (set_response v).
Proof. intros f. reflexivity. Qed.

Lemma keeps_attr_set_cancelled {B} (g : Request -> B) b :
  keeps_attr g (set_cancelled b).
Proof. intros f. reflexivity. Qed.

Lemma keeps_attr_get_response {B} (g : Request -> B) :
  keeps_attr g get_response.
Proof. intros f. reflexivity. Qed.

Lemma keeps_attr_get_cancelled {B} (g : Request -> B) :
  keeps_attr g get_cancelled.
Proof. intros f. reflexivity. Qed.

Lemma keeps_attr_set_request {B} (g : Request -> B) upd :
  (forall r, g (upd r) = g r) -> keeps_attr g (set_request upd).
Proof. intros H f. apply H. Qed.

Lemma keeps_attr_bind {A B C} (g : Request -> C) (m : M A) (k : A -> M B) :
  keeps_attr g m -> (forall a, keeps_attr g (k a)) -> keeps_attr g (bind m k).
Proof.
  intros Hm Hk f. rewrite bind_run.
  destruct (result (m f)) as [a|e]; simpl; [|apply Hm].
  now rewrite Hk, Hm.
Qed.

Lemma keeps_attr_try_except {A C} (g : Request -> C) (m : M A)
    (h : exn -> M A) :
  keeps_attr g m -> (forall e, keeps_attr g (h e)) ->
  keeps_attr g (try_except m h).
Proof.
  intros Hm Hh f. unfold try_except.
  destruct (result (m f)) as [a|e]; simpl; [apply Hm|].
  now rewrite Hh, Hm.
Qed.

Lemma keeps_attr_try_finally {A C} (g : Request -> C) (m : M A)
    (fin : M unit) :
  keeps_attr g m -> keeps_attr g fin -> keeps_attr g (try_finally m fin).
Proof. intros Hm Hfin f. unfold try_finally; simpl. now rewrite Hfin, Hm. Qed.

Lemma keeps_attr_await {B} (g : Request -> B) v : keeps_attr g (await v).
Proof. intros f. now destruct v as [ | | | | |[a|e]]. Qed.

Lemma keeps_attr_run_request_middleware {B} (g : Request -> B) self :
  keeps_attr g (_run_request_middleware self).
Proof.
  intros f. now rewrite run_request_middleware_loop, loops_keep_frame_request.
Qed.

Lemma keeps_attr_run_response_middleware {B} (g : Request -> B) self v :
  keeps_attr g (_run_response_middleware self v).
Proof.
  intros f. now rewrite run_response_middleware_loop, loops_keep_frame_response.
Qed.

Ltac keeps_attr_step :=
  lazymatch goal with
  | |- keeps_attr _ (bind _ _) => apply keeps_attr_bind; [|intros ?]
  | |- keeps_attr _ (try_except _ _) => apply keeps_attr_try_except; [|intros ?]
  | |- keeps_attr _ (try_finally _ _) => apply keeps_attr_try_finally
  | |- keeps_attr _ (ret _) => apply keeps_attr_ret
  | |- keeps_attr _ (raise _) => apply keeps_attr_raise
  | |- keeps_attr _ (await _) => apply keeps_attr_await
  | |- keeps_attr _ (emit _) => apply keeps_attr_emit
  | |- keeps_attr _ (call _ _) => apply keeps_attr_call
  | |- keeps_attr _ get_response => apply keeps_attr_get_response
  | |- keeps_attr _ get_cancelled => apply keeps_attr_get_cancelled
  | |- keeps_attr _ (set_response _) => apply keeps_attr_set_response
  | |- keeps_attr _ (set_cancelled _) => apply keeps_attr_set_cancelled
  | |- keeps_attr _ (set_request _) =>
      apply keeps_attr_set_request; intros ?; reflexivity
  | |- keeps_attr _ (_run_request_middleware _) =>
      apply keeps_attr_run_request_middleware
  | |- keeps_attr _ (_run_response_middleware _ _) =>
      apply keeps_attr_run_response_middleware
  | |- keeps_attr _ (if ?b then _ else _) => destruct b
  | |- keeps_attr _ (match ?x with _ => _ end) => destruct x
  | |- keeps_attr _ (let '(_, _) := ?x in _) => destruct x
  end.


Lemma recover_keeps_request py self e :
  keeps_attr (fun r => r) (recover py self e).
Proof.
  unfold recover, call_error_response, call_error_default.
  repeat keeps_attr_step.
Qed.

Lemma finalizer_keeps_request self : keeps_attr (fun r => r) (finalizer self).
Proof. unfold finalizer. repeat keeps_attr_step. Qed.

Lemma output_keeps_request write_callback stream_callback :
  keeps_attr (fun r => r) (output write_callback stream_callback).
Proof. unfold output. repeat keeps_attr_step. Qed.

(** After the first assignment the attempt touches neither the identity
    nor the server reference of the request. *)
Lemma dispatch_keeps_attr {B} (g : Request -> B) self :
  (forall uri r, g (assign_uri_template uri r) = g r) ->
  (forall ep r, g (assign_endpoint ep r) = g r) ->
  keeps_attr g (dispatch self).
Proof.
  intros Huri Hep.
  unfold dispatch, run_handler, router_get, call_handler, rebuild.
  keeps_attr_step; [repeat keeps_attr_step|].
  destruct a as [[[handler args] kwargs] uri].
  keeps_attr_step; [apply keeps_attr_set_request, Huri|].
  keeps_attr_step.
  - destruct handler; [|keeps_attr_step].
    keeps_attr_step; [apply keeps_attr_set_request, Hep|keeps_attr_step].
  - repeat keeps_attr_step.
Qed.

(** The request the run leaves is the one the attempt left. *)
Lemma handle_request_request py self req write_callback stream_callback :
  request (frame (handle_request py self req write_callback stream_callback)) =
  request (frame (attempt self (entry req))).
Proof.
  unfold handle_request, handle_request_from.
  assert (Hout : forall m : M unit,
            request (frame (bind m (fun _ => output write_callback
                                               stream_callback) (entry req))) =
            request (frame (m (entry req)))).
  { intros m. rewrite bind_run. destruct (result (m (entry req)));
      [|reflexivity].
    unfold prepend. cbn [frame].
    apply (output_keeps_request write_callback stream_callback). }
  rewrite Hout, pipeline_run. unfold try_finally. cbn [frame].
  rewrite (finalizer_keeps_request self).
  unfold guarded, try_except.
  destruct (result (attempt self (entry req))) as [[]|e]; [reflexivity|].
  cbn [frame].
  destruct (isinstance_CancelledError e); [reflexivity|].
  destruct (isinstance_Exception py e); [|reflexivity].
  apply (recover_keeps_request py self e).
Qed.

Lemma attempt_attr {B} (g : Request -> B) self f :
  (forall uri r, g (assign_uri_template uri r) = g r) ->
  (forall ep r, g (assign_endpoint ep r) = g r) ->
  g (request (frame (attempt self f))) = g (assign_app (name self) (request f)).
Proof.
  intros Huri Hep. unfold attempt. rewrite bind_run.
  cbn [set_request result frame trace]. unfold prepend. cbn [frame].
  match goal with
  | |- g (request (frame (?k ?f1))) = _ =>
      assert (Hk : keeps_attr g k); [|exact (Hk f1)]
  end.
  keeps_attr_step; [keeps_attr_step|].
  keeps_attr_step; [keeps_attr_step|].
  destruct (negb (truthy a)); [|keeps_attr_step].
  now apply dispatch_keeps_attr.
Qed.



(** X2: every run keeps the identity of the request and leaves the
    server's name on it; a run that a pre-handler middleware cut short
    leaves the route template and the endpoint as they were; a run in
    which the router gave no handler has assigned the route template and
    left the endpoint as it was. *)
Theorem request_attributes py self req write_callback stream_callback :
  let rq :=
    request (frame (handle_request py self req write_callback
                      stream_callback)) in
  req_id rq = req_id req /\
  req_app rq = Some (name self) /\
  (forall pre mw post v,
     request_middleware self = pre ++ mw :: post ->
     Forall (fun m => passes (rq_call m (assign_app (name self) req)) = true)
            pre ->
     resolved (rq_call mw (assign_app (name self) req)) = Returns v ->
     truthy v = true ->
     uri_template rq = uri_template req /\ endpoint rq = endpoint req) /\
  (forall get args kwargs uri,
     Forall (fun m => passes (rq_call m (assign_app (name self) req)) = true)
            (request_middleware self) ->
     router self = Some get ->
     get (assign_app (name self) req) = Returns (None, args, kwargs, uri) ->
     uri_template rq = Some uri /\ endpoint rq = endpoint req).
Proof.
  intros rq. unfold rq. rewrite handle_request_request.
  split; [|split; [|split]].
  - now rewrite (attempt_attr req_id).
  - now rewrite (attempt_attr req_app).
  - intros pre mw post v Hl Hpre Hv Ht.
    rewrite (attempt_short_circuit self req pre mw post v Hl Hpre Hv Ht).
    now split.
  - intros get args kwargs uri Hall Hr Hg.
    rewrite attempt_dispatches by exact Hall.
    rewrite (dispatch_no_handler self get args kwargs uri
               (entered self req) Hr Hg).
    now split.
Qed.

Lemma request_attributes_witness :
  uri_template (request (frame (handle_request python38
     (with_request_middleware [rq_continue; rq_deny; rq_late]
        (serving hello_handler)) request0 returning returning))) = None /\
  uri_template (request (frame (handle_request python38 unrouted request0
     returning returning))) = Some "/missing" /\
  endpoint (request (frame (handle_request python38 unrouted request0
     returning returning))) = None.
Proof.
  split.
  - destruct (request_attributes python38
                (with_request_middleware [rq_continue; rq_deny; rq_late]
                   (serving hello_handler)) request0 returning returning)
      as (_ & _ & Hshort & _).
    destruct (Hshort [rq_continue] rq_deny [rq_late] deny eq_refl
                ltac:(repeat constructor) eq_refl eq_refl) as [Huri _].
    exact Huri.
  - destruct (request_attributes python38 unrouted request0 returning
                returning) as (_ & _ & _ & Hnone).
    exact (Hnone (fun _ => Returns (None, [], [], "/missing")) [] []
             "/missing" ltac:(constructor) eq_refl eq_refl).
Defined.

(** ** The runners, whatever the middleware do *)

Lemma request_middleware_loop_cases mws f :
  exists pre rest,
    mws = pre ++ rest /\
    Forall (fun m => passes (rq_call m (request f)) = true) pre /\
    ((rest = [] /\
      request_middleware_loop mws f =
        mkRun (request_calls pre) f (Returns VNone)) \/
     (exists mw post,
        rest = mw :: post /\
        passes (rq_call mw (request f)) = false /\
        request_middleware_loop mws f =
          mkRun (request_calls (pre ++ [mw])) f
                (resolved (rq_call mw (request f))))).
Proof.
  induction mws as [|mw mws IH].
  - exists [], []. split; [reflexivity|]. split; [constructor|].
    left. now split.
  - destruct (passes (rq_call mw (request f))) eqn:Hmw.
    + destruct IH as (pre & rest & -> & Hpre & Hcases).
      exists (mw :: pre), rest. split; [reflexivity|].
      split; [now constructor|].
      assert (Hstep : request_middleware_loop (mw :: pre ++ rest) f =
                prepend [CallRequestMiddleware (rq_id mw)]
                        (request_middleware_loop (pre ++ rest) f)).
      { apply (request_middleware_loop_app [mw]). now repeat constructor. }
      destruct Hcases as [[-> Hrun]|(mw' & post & -> & Hfalse & Hrun)].
      * left. split; [reflexivity|]. now rewrite Hstep, Hrun.
      * right. exists mw', post. split; [reflexivity|]. split; [exact Hfalse|].
        now rewrite Hstep, Hrun.
    + exists [], (mw :: mws). split; [reflexivity|]. split; [constructor|].
      right. exists mw, mws. split; [reflexivity|]. split; [exact Hmw|].
      simpl. unfold call_request_middleware. rewrite call_resolve.
      unfold passes in Hmw.
      destruct (resolved (rq_call mw (request f))) as [a|e]; [|reflexivity].
      apply negb_false_iff in Hmw. now rewrite Hmw.
Qed.

Lemma response_middleware_loop_cases mws v f :
  exists pre rest,
    mws = pre ++ rest /\
    Forall (fun m => passes (rs_call m (request f) v) = true) pre /\
    ((rest = [] /\
      response_middleware_loop mws v f =
        mkRun (response_calls pre v) f (Returns v)) \/
     (exists mw post,
        rest = mw :: post /\
        passes (rs_call mw (request f) v) = false /\
        response_middleware_loop mws v f =
          mkRun (response_calls (pre ++ [mw]) v) f
                (resolved (rs_call mw (request f) v)))).
Proof.
  induction mws as [|mw mws IH].
  - exists [], []. split; [reflexivity|]. split; [constructor|].
    left. now split.
  - destruct (passes (rs_call mw (request f) v)) eqn:Hmw.
    + destruct IH as (pre & rest & -> & Hpre & Hcases).
      exists (mw :: pre), rest. split; [reflexivity|].
      split; [now constructor|].
      assert (Hstep : response_middleware_loop (mw :: pre ++ rest) v f =
                prepend [CallResponseMiddleware (rs_id mw) v]
                        (response_middleware_loop (pre ++ rest) v f)).
      { apply (response_middleware_loop_app [mw]). now repeat constructor. }
      destruct Hcases as [[-> Hrun]|(mw' & post & -> & Hfalse & Hrun)].
      * left. split; [reflexivity|]. now rewrite Hstep, Hrun.
      * right. exists mw', post. split; [reflexivity|]. split; [exact Hfalse|].
        now rewrite Hstep, Hrun.
    + exists [], (mw :: mws). split; [reflexivity|]. split; [constructor|].
      right. exists mw, mws. split; [reflexivity|]. split; [exact Hmw|].
      simpl. unfold call_response_middleware. rewrite call_resolve.
      unfold passes in Hmw.
      destruct (resolved (rs_call mw (request f) v)) as [a|e]; [|reflexivity].
      apply negb_false_iff in Hmw. now rewrite Hmw.
Qed.

(** X3: whatever the pre-handler middleware do, the runner calls a
    leading part of the list, in order and each once, and leaves the
    frame alone: it either calls them all and gives [None], or stops at
    the first one whose resolved result is truthy or that raises, and
    ends as that one did. *)
Theorem request_middleware_runner_cases self f :
  exists pre rest,
    request_middleware self = pre ++ rest /\
    Forall (fun m => passes (rq_call m (request f)) = true) pre /\
    ((rest = [] /\
      _run_request_middleware self f =
        mkRun (request_calls pre) f (Returns VNone)) \/
     (exists mw post,
        rest = mw :: post /\
        passes (rq_call mw (request f)) = false /\
        _run_request_middleware self f =
          mkRun (request_calls (pre ++ [mw])) f
                (resolved (rq_call mw (request f))))).
Proof.
  rewrite run_request_middleware_loop.
  apply request_middleware_loop_cases.
Qed.

(** X4: whatever the post-handler middleware do, the runner calls a
    leading part of the list, in order, each once and each with the
    response it was given, and leaves the frame alone: it either calls
    them all and gives that response back, or stops at the first one
    whose resolved result is truthy or that raises, and ends as that one
    did. *)
Theorem response_middleware_runner_cases self v f :
  exists pre rest,
    response_middleware self = pre ++ rest /\
    Forall (fun m => passes (rs_call m (request f) v) = true) pre /\
    ((rest = [] /\
      _run_response_middleware self v f =
        mkRun (response_calls pre v) f (Returns v)) \/
     (exists mw post,
        rest = mw :: post /\
        passes (rs_call mw (request f) v) = false /\
        _run_response_middleware self v f =
          mkRun (response_calls (pre ++ [mw]) v) f
                (resolved (rs_call mw (request f) v)))).
Proof.
  rewrite run_response_middleware_loop.
  apply response_middleware_loop_cases.
Qed.

(** ** Faults and cancellations of the attempt *)

Lemma recover_trace_head py self e f :
  exists tail,
    trace (recover py self e f) =
    [LogError "Exception: "; CallErrorResponse e] ++ tail.
Proof.
  rewrite recover_run. cbv zeta.
  destruct (resolved _) as [v|e2]; [now exists []|].
  destruct (isinstance_Exception py e2); [|now exists []].
  now exists (secondary_calls py e2).
Qed.

Lemma guarded_past_dispatch py self req e :
  result (attempt self (entry req)) = Raises e ->
  exists tail,
    trace (guarded py self (entry req)) =
      trace (attempt self (entry req)) ++ tail /\
    Forall (fun ev => past_dispatch ev = true) tail.
Proof.
  intros Ha.
  destruct (isinstance_CancelledError e) eqn:Hc.
  { rewrite (guarded_cancels _ _ _ _ Ha Hc). exists []. cbn [trace].
    split; [now rewrite app_nil_r|constructor]. }
  destruct (isinstance_Exception py e) eqn:He.
  - rewrite (guarded_recovers _ _ _ _ Ha Hc He).
    exists (trace (recover py self e (frame (attempt self (entry req))))).
    split; [reflexivity|].
    now apply (recover_emits past_dispatch).
  - rewrite (guarded_propagates _ _ _ _ Ha Hc He). exists [].
    split; [now rewrite app_nil_r|constructor].
Qed.

(** X5: on a server built without a router, when the pre-handler chain
    gives no response the lookup [self.router.get] fails with an
    [AttributeError]; the fault goes to the error handler's mapping like
    any other exception, and neither a router nor a handler is called. *)
Theorem missing_router_is_recovered py self req write_callback
    stream_callback :
  Forall (fun m => passes (rq_call m (assign_app (name self) req)) = true)
         (request_middleware self) ->
  router self = None ->
  attempt self (entry req) =
    mkRun (request_calls (request_middleware self)) (entered self req)
          (Raises no_router_error) /\
  (exists tail,
     trace (guarded py self (entry req)) =
     request_calls (request_middleware self) ++
     [LogError "Exception: "; CallErrorResponse no_router_error] ++ tail) /\
  List.filter is_dispatch
    (trace (handle_request py self req write_callback stream_callback)) = [].
Proof.
  intros Hall Hr.
  assert (Hattempt : attempt self (entry req) =
            mkRun (request_calls (request_middleware self)) (entered self req)
                  (Raises no_router_error)).
  { rewrite attempt_dispatches by exact Hall.
    unfold dispatch, router_get. rewrite Hr, bind_run.
    unfold prepend, raise. cbn [result trace frame].
    now rewrite app_nil_r. }
  split; [exact Hattempt|]. split.
  - rewrite (guarded_recovers py self (entry req) no_router_error);
      rewrite ?Hattempt; try reflexivity.
    destruct (recover_trace_head py self no_router_error (entered self req))
      as (tail & Htail).
    exists tail. unfold prepend. cbn [trace frame]. now rewrite Htail.
  - destruct (handle_request_tail py self req write_callback stream_callback)
      as (tail & Htr & Htail).
    destruct (guarded_past_dispatch py self req no_router_error)
      as (tail' & Htr' & Htail'); [now rewrite Hattempt|].
    rewrite Htr, Htr', Hattempt. cbn [trace]. rewrite !List.filter_app.
    destruct (past_dispatch_split _ Htail) as [_ ->].
    destruct (past_dispatch_split _ Htail') as [_ ->].
    now destruct (request_calls_filter (request_middleware self)) as [_ ->].
Qed.

Lemma missing_router_is_recovered_witness :
  handle_request python38 routerless request0 returning returning =
  mkRun [LogError "Exception: "; CallErrorResponse no_router_error;
         CallWrite (VHTTPResponse
           (mkHTTPResponse "'NoneType' object has no attribute 'get'" 500
              Omitted Omitted))]
        (mkFrame (assign_app "app" request0)
           (VHTTPResponse
              (mkHTTPResponse "'NoneType' object has no attribute 'get'" 500
                 Omitted Omitted))
           false)
        (Returns tt) /\
  List.filter is_dispatch
    (trace (handle_request python38 routerless request0 returning returning))
    = [].
Proof.
  destruct (missing_router_is_recovered python38 routerless request0
              returning returning ltac:(constructor) eq_refl)
    as (_ & _ & Hdispatch).
  split; [reflexivity|exact Hdispatch].
Defined.

(** X6: a cancellation that comes out of the attempt, from a pre-handler
    middleware, the router, the handler or the awaited result of one of
    them, ends the run there on either interpreter generation: the
    response is dropped, the flag is raised, nothing is logged, neither
    the error handler nor a post-handler middleware nor a callback is
    called, and a fresh [CancelledError] reaches the caller. *)
Theorem cancellation_in_attempt_is_gated py self req write_callback
    stream_callback e :
  result (attempt self (entry req)) = Raises e ->
  isinstance_CancelledError e = true ->
  handle_request py self req write_callback stream_callback =
    mkRun (trace (attempt self (entry req)))
          (mkFrame (request (frame (attempt self (entry req)))) VNone true)
          (Raises cancellation).
Proof.
  intros Ha Hc.
  pose proof (handle_request_run py self req write_callback stream_callback)
    as Hrun. cbv zeta in Hrun.
  rewrite (guarded_cancels py self (entry req) e Ha Hc) in Hrun.
  cbn [frame trace result] in Hrun.
  rewrite finalizer_absent in Hrun by reflexivity.
  cbn [frame trace result cancelled] in Hrun.
  now rewrite Hrun, !app_nil_r.
Qed.

Lemma cancellation_in_attempt_is_gated_witness :
  handle_request python37 (with_response_middleware [rs_replace]
                             (serving cancelled_handler))
                 request0 returning returning =
  mkRun [CallRouterGet; CallHandler "slow";
         LogInfo "got response from function"]
        (mkFrame (mkRequest 0 (Some "app") (Some "/") (Some "app.slow"))
                 VNone true)
        (Raises cancellation).
Proof.
  rewrite (cancellation_in_attempt_is_gated python37
             (with_response_middleware [rs_replace] (serving cancelled_handler))
             request0 returning returning cancellation eq_refl eq_refl).
  reflexivity.
Defined.

(** X7: when the attempt raises an exception that is not a cancellation
    and the error handler's mapping gives a response, that response
    becomes the pipeline's response; when it is not [None] the
    post-handler middleware are run on it and the callback receives what
    they give, and when it is [None] they are skipped and the write
    callback receives [None]. *)
Theorem recovered_response_is_post_processed py self req write_callback
    stream_callback e v :
  let a := attempt self (entry req) in
  let fv := mkFrame (request (frame a)) v false in
  let run := _run_response_middleware self v fv in
  result a = Raises e ->
  isinstance_CancelledError e = false ->
  isinstance_Exception py e = true ->
  resolved (eh_response (error_handler self) (request (frame a)) e) =
    Returns v ->
  guarded py self (entry req) =
    mkRun (trace a ++ [LogError "Exception: "; CallErrorResponse e]) fv
          (Returns tt) /\
  (is_not_None v = true ->
   forall u, result run = Returns u ->
     handle_request py self req write_callback stream_callback =
       mkRun (trace a ++ [LogError "Exception: "; CallErrorResponse e] ++
              trace run ++ [callback_for u])
             (mkFrame (request (frame a)) u false)
             (callback_result write_callback stream_callback u)) /\
  (v = VNone ->
   handle_request py self req write_callback stream_callback =
     mkRun (trace a ++ [LogError "Exception: "; CallErrorResponse e;
                        CallWrite VNone])
           fv (write_callback VNone)).
Proof.
  intros a fv run Ha Hc He Hmap.
  assert (Hflag : cancelled (frame a) = false).
  { unfold a. now rewrite attempt_keeps_cancelled. }
  assert (Hg : guarded py self (entry req) =
            mkRun (trace a ++ [LogError "Exception: "; CallErrorResponse e]) fv
                  (Returns tt)).
  { rewrite (guarded_recovers py self (entry req) e Ha Hc He).
    fold a. rewrite recover_run. cbv zeta. rewrite Hmap.
    unfold prepend. cbn [trace frame result]. now rewrite Hflag. }
  split; [exact Hg|].
  pose proof (done_run py self req write_callback stream_callback) as Hrun.
  cbv zeta in Hrun. rewrite Hg in Hrun. cbn [result frame trace] in Hrun.
  specialize (Hrun eq_refl eq_refl).
  change (response fv) with v in Hrun.
  change (request fv) with (request (frame a)) in Hrun.
  split.
  - intros Hv u Hu. rewrite Hrun, Hv. fold run. rewrite Hu.
    now rewrite <- !app_assoc.
  - intros Hv. rewrite Hrun, Hv. cbn [is_not_None].
    now rewrite <- app_assoc.
Qed.

Lemma recovered_response_is_post_processed_witness :
  handle_request python38
    (with_response_middleware [rs_continue; rs_replace]
       (serving failing_handler)) request0 returning returning =
  mkRun [CallRouterGet; CallHandler "index"; LogError "Exception: ";
         CallErrorResponse boom;
         CallResponseMiddleware 0
           (VHTTPResponse (mkHTTPResponse "boom" 500 Omitted Omitted));
         CallResponseMiddleware 1
           (VHTTPResponse (mkHTTPResponse "boom" 500 Omitted Omitted));
         CallWrite teapot]
        (mkFrame (mkRequest 0 (Some "app") (Some "/") (Some "app.index"))
                 teapot false)
        (Returns tt).
Proof.
  destruct (recovered_response_is_post_processed python38
              (with_response_middleware [rs_continue; rs_replace]
                 (serving failing_handler)) request0 returning returning
              boom
              (VHTTPResponse (mkHTTPResponse "boom" 500 Omitted Omitted))
              eq_refl eq_refl eq_refl eq_refl) as (_ & Hpresent & _).
  rewrite (Hpresent eq_refl teapot eq_refl). reflexivity.
Defined.

(** X8: a signal outside [Exception] that is not a cancellation and that
    comes out of the attempt while no response has been assigned ends the
    run there: it reaches the caller as it is, and nothing is logged and
    neither the error handler nor a post-handler middleware nor a
    callback is called. *)
Theorem signal_before_response_propagates py self req write_callback
    stream_callback e :
  result (attempt self (entry req)) = Raises e ->
  isinstance_CancelledError e = false ->
  isinstance_Exception py e = false ->
  response (frame (attempt self (entry req))) = VNone ->
  handle_request py self req write_callback stream_callback =
    mkRun (trace (attempt self (entry req))) (frame (attempt self (entry req)))
          (Raises e).
Proof.
  intros Ha Hc He Hr.
  pose proof (handle_request_run py self req write_callback stream_callback)
    as Hrun. cbv zeta in Hrun.
  rewrite (guarded_propagates py self (entry req) e Ha Hc He) in Hrun.
  rewrite (finalizer_absent _ _ Hr), attempt_keeps_cancelled in Hrun.
  cbn [frame trace result cancelled entry] in Hrun.
  now rewrite Hrun, Ha, app_nil_r.
Qed.

Lemma signal_before_response_propagates_witness :
  handle_request python38
    (with_response_middleware [rs_replace] (serving interrupted_handler))
    request0 returning returning =
  mkRun [CallRouterGet; CallHandler "index"]
        (mkFrame (mkRequest 0 (Some "app") (Some "/") (Some "app.index"))
                 VNone false)
        (Raises (mkExn OtherBaseException "KeyboardInterrupt")).
Proof.
  rewrite (signal_before_response_propagates python38
             (with_response_middleware [rs_replace]
                (serving interrupted_handler))
             request0 returning returning
             (mkExn OtherBaseException "KeyboardInterrupt")
             eq_refl eq_refl eq_refl eq_refl).
  reflexivity.
Defined.

(** X14: a signal outside [Exception] that comes out of the attempt
    after the handler's awaitable was assigned to the response finds the
    [finally] clause with a response that is not [None]: the post-handler
    middleware are run on that awaitable before the signal reaches the
    caller, no callback is called, and a cancellation among them takes
    the signal's place. *)
Theorem signal_after_awaitable_runs_post_middleware py self req
    write_callback stream_callback e :
  let a := attempt self (entry req) in
  let run := _run_response_middleware self (response (frame a)) (frame a) in
  result a = Raises e ->
  isinstance_CancelledError e = false ->
  isinstance_Exception py e = false ->
  is_not_None (response (frame a)) = true ->
  handle_request py self req write_callback stream_callback =
  match result run with
  | Returns r =>
      mkRun (trace a ++ trace run) (mkFrame (request (frame a)) r false)
            (Raises e)
  | Raises e' =>
      if isinstance_CancelledError e' then
        mkRun (trace a ++ trace run)
              (mkFrame (request (frame a)) VNone true) (Raises cancellation)
      else
        mkRun (trace a ++ trace run ++ [middleware_failure]) (frame a)
              (Raises e)
  end.
Proof.
  intros a run Ha Hc He Hr.
  assert (Hflag : cancelled (frame a) = false).
  { unfold a. now rewrite attempt_keeps_cancelled. }
  pose proof (handle_request_run py self req write_callback stream_callback)
    as Hrun. cbv zeta in Hrun.
  rewrite (guarded_propagates py self (entry req) e Ha Hc He) in Hrun.
  fold a in Hrun. rewrite (finalizer_present _ _ Hr) in Hrun.
  cbv zeta in Hrun. fold run in Hrun. rewrite Hflag, Ha in Hrun.
  rewrite Hrun. destruct (result run) as [r|e']; [reflexivity|].
  destruct (isinstance_CancelledError e'); reflexivity.
Qed.

Lemma signal_after_awaitable_runs_post_middleware_witness :
  handle_request python38
    (with_response_middleware [rs_continue]
       (serving interrupted_coroutine_handler))
    request0 returning returning =
  mkRun [CallRouterGet; CallHandler "wait";
         LogInfo "got response from function";
         CallResponseMiddleware 0
           (VAwaitable
              (Raises (mkExn OtherBaseException "KeyboardInterrupt")))]
        (mkFrame (mkRequest 0 (Some "app") (Some "/") (Some "app.wait"))
           (VAwaitable (Raises (mkExn OtherBaseException "KeyboardInterrupt")))
           false)
        (Raises (mkExn OtherBaseException "KeyboardInterrupt")).
Proof.
  rewrite (signal_after_awaitable_runs_post_middleware python38
             (with_response_middleware [rs_continue]
                (serving interrupted_coroutine_handler))
             request0 returning returning
             (mkExn OtherBaseException "KeyboardInterrupt")
             eq_refl eq_refl eq_refl eq_refl).
  reflexivity.
Defined.

(** ** After the handler *)

Lemma truthy_is_not_None v : truthy v = true -> is_not_None v = true.
Proof. now destruct v. Qed.

(** X9: the callback is chosen by the response that comes out of the
    post-handler middleware, not by the one the handler gave.  When the
    handler returns at once a response that is not [None], the
    middleware are called with it up to the first that replaces it, and
    the replacement goes to the stream callback when it is a
    [StreamingHTTPResponse] and to the write callback otherwise; when
    none replaces it, the handler's own response goes to its callback. *)
Theorem output_follows_final_response py self req write_callback
    stream_callback get h args kwargs uri v :
  Forall (fun m => passes (rq_call m (assign_app (name self) req)) = true)
         (request_middleware self) ->
  router self = Some get ->
  get (assign_app (name self) req) = Returns (Some h, args, kwargs, uri) ->
  let f := routed self h uri (entered self req) in
  let before :=
    request_calls (request_middleware self) ++
    [CallRouterGet; CallHandler (h_name h)] in
  h_call h (request f) args kwargs = Returns v ->
  isawaitable v = false ->
  is_not_None v = true ->
  (forall pre mw post u,
     response_middleware self = pre ++ mw :: post ->
     Forall (fun m => passes (rs_call m (request f) v) = true) pre ->
     resolved (rs_call mw (request f) v) = Returns u ->
     truthy u = true ->
     handle_request py self req write_callback stream_callback =
       mkRun (before ++ response_calls (pre ++ [mw]) v ++
              [if isinstance_StreamingHTTPResponse u then CallStream u
               else CallWrite u])
             (mkFrame (request f) u false)
             (if isinstance_StreamingHTTPResponse u then stream_callback u
              else write_callback u)) /\
  (Forall (fun m => passes (rs_call m (request f) v) = true)
          (response_middleware self) ->
   handle_request py self req write_callback stream_callback =
     mkRun (before ++ response_calls (response_middleware self) v ++
            [if isinstance_StreamingHTTPResponse v then CallStream v
             else CallWrite v])
           (mkFrame (request f) v false)
           (if isinstance_StreamingHTTPResponse v then stream_callback v
            else write_callback v)).
Proof.
  intros Hall Hr Hg f before Hc Ha Hv.
  pose proof (attempt_found self req get h args kwargs uri Hall Hr Hg)
    as Hattempt. fold f in Hattempt.
  rewrite (run_handler_immediate _ _ _ _ v Hc Ha) in Hattempt.
  assert (Hguarded : guarded py self (entry req) =
            mkRun before (mkFrame (request f) v false) (Returns tt)).
  { rewrite guarded_returns, Hattempt by now rewrite Hattempt.
    unfold prepend, before; simpl. now rewrite <- app_assoc. }
  pose proof (done_run py self req write_callback stream_callback) as Hrun.
  cbv zeta in Hrun. rewrite Hguarded in Hrun.
  cbn [result frame trace response request cancelled] in Hrun.
  specialize (Hrun eq_refl eq_refl). rewrite Hv in Hrun.
  split.
  - intros pre mw post u Hl Hpre Hu Ht.
    rewrite run_response_middleware_loop, Hl in Hrun.
    rewrite response_middleware_loop_app in Hrun by exact Hpre.
    rewrite (response_middleware_loop_first _ _ _ _ u) in Hrun by assumption.
    unfold prepend in Hrun. cbn [result trace frame] in Hrun.
    rewrite Hrun. unfold response_calls, callback_for, callback_result.
    now rewrite map_app, <- !app_assoc.
  - intros Hpass.
    rewrite run_response_middleware_loop in Hrun.
    rewrite response_middleware_loop_all in Hrun by exact Hpass.
    cbn [result trace frame] in Hrun.
    rewrite Hrun. unfold callback_for, callback_result.
    now rewrite <- !app_assoc.
Qed.

Lemma output_follows_final_response_witness :
  handle_request python38
    (with_response_middleware [rs_continue; rs_replace; rs_late]
       (serving streaming_handler)) request0 returning returning =
  mkRun [CallRouterGet; CallHandler "feed";
         CallResponseMiddleware 0 stream7; CallResponseMiddleware 1 stream7;
         CallWrite teapot]
        (mkFrame (mkRequest 0 (Some "app") (Some "/") (Some "app.feed"))
                 teapot false)
        (Returns tt) /\
  handle_request python38
    (with_response_middleware [rs_continue] (serving streaming_handler))
    request0 returning returning =
  mkRun [CallRouterGet; CallHandler "feed";
         CallResponseMiddleware 0 stream7; CallStream stream7]
        (mkFrame (mkRequest 0 (Some "app") (Some "/") (Some "app.feed"))
                 stream7 false)
        (Returns tt).
Proof.
  split.
  - destruct (output_follows_final_response python38
                (with_response_middleware [rs_continue; rs_replace; rs_late]
                   (serving streaming_handler)) request0 returning returning
                (fun _ => Returns (Some streaming_handler, [], [], "/"))
                streaming_handler [] [] "/" stream7
                ltac:(constructor) eq_refl eq_refl eq_refl eq_refl eq_refl)
      as [Hreplaced _].
    rewrite (Hreplaced [rs_continue] rs_replace [rs_late] teapot eq_refl
               ltac:(repeat constructor) eq_refl eq_refl).
    reflexivity.
  - destruct (output_follows_final_response python38
                (with_response_middleware [rs_continue]
                   (serving streaming_handler)) request0 returning returning
                (fun _ => Returns (Some streaming_handler, [], [], "/"))
                streaming_handler [] [] "/" stream7
                ltac:(constructor) eq_refl eq_refl eq_refl eq_refl eq_refl)
      as [_ Hkept].
    rewrite (Hkept ltac:(repeat constructor)). reflexivity.
Defined.

(** X10: the cancellation flag and the response go together.  When the
    [try] statement ends with the flag raised, the response has been
    dropped and a [CancelledError] is raised; when it ends normally the
    flag is down. *)
Theorem cancelled_flag_drops_response py self req :
  let p := pipeline py self (entry req) in
  (cancelled (frame p) = true ->
   response (frame p) = VNone /\ result p = Raises cancellation) /\
  (result p = Returns tt -> cancelled (frame p) = false).
Proof.
  intros p. unfold p. rewrite pipeline_run. unfold try_finally.
  cbn [frame result].
  set (g := guarded py self (entry req)).
  pose proof (guarded_cancelled_drops py self (entry req) eq_refl) as Hdrop.
  fold g in Hdrop.
  destruct (is_not_None (response (frame g))) eqn:Hr.
  - pose proof (done_flag py self req Hr) as Hflag. fold g in Hflag.
    rewrite (finalizer_present _ _ Hr). cbv zeta. rewrite Hflag.
    destruct (result (_run_response_middleware _ _ _)) as [r|e].
    + cbn [frame result cancelled]. split; [discriminate|reflexivity].
    + destruct (isinstance_CancelledError e); cbn [frame result cancelled
        response].
      * split; [now split|discriminate].
      * split; [congruence|now intros _].
  - apply is_not_None_false in Hr. rewrite (finalizer_absent _ _ Hr).
    cbn [frame result].
    destruct (cancelled (frame g)); split; try discriminate.
    + now intros _.
    + reflexivity.
Qed.

(** X11: a coroutine handler whose awaited result is [None] does not end
    like a plain handler that returns [None]: the lookup of [body] on the
    result fails, the attempt raises an ordinary exception with the
    awaitable still in the response local, and the error handler's
    mapping is called. *)
Theorem coroutine_returning_none_fails py self req get h args kwargs uri :
  Forall (fun m => passes (rq_call m (assign_app (name self) req)) = true)
         (request_middleware self) ->
  router self = Some get ->
  get (assign_app (name self) req) = Returns (Some h, args, kwargs, uri) ->
  let f := routed self h uri (entered self req) in
  let stale := mkFrame (request f) (VAwaitable (Returns VNone)) false in
  let before :=
    request_calls (request_middleware self) ++
    [CallRouterGet; CallHandler (h_name h);
     LogInfo "got response from function"] in
  h_call h (request f) args kwargs = Returns (VAwaitable (Returns VNone)) ->
  exists e,
    exc_type e = OtherException /\
    attempt self (entry req) = mkRun before stale (Raises e) /\
    exists tail,
      trace (guarded py self (entry req)) =
      before ++ [LogError "Exception: "; CallErrorResponse e] ++ tail.
Proof.
  intros Hall Hr Hg f stale before Hc.
  exists (mkExn OtherException "object has no attribute 'body'").
  split; [reflexivity|].
  assert (Hattempt : attempt self (entry req) =
            mkRun before stale
              (Raises (mkExn OtherException "object has no attribute 'body'"))).
  { rewrite (attempt_found self req get h args kwargs uri Hall Hr Hg).
    fold f. unfold run_handler, call_handler. rewrite bind_run.
    cbn [call result trace frame]. rewrite Hc. unfold prepend.
    cbn. unfold before. now rewrite <- app_assoc. }
  split; [exact Hattempt|].
  rewrite (guarded_recovers py self (entry req)
             (mkExn OtherException "object has no attribute 'body'"));
    rewrite ?Hattempt; try reflexivity.
  destruct (recover_trace_head py self
              (mkExn OtherException "object has no attribute 'body'") stale)
    as (tail & Htail).
  exists tail. unfold prepend. cbn [trace frame]. now rewrite Htail.
Qed.

Lemma coroutine_returning_none_fails_witness :
  exists e,
    exc_type e = OtherException /\
    result (attempt (serving empty_coroutine_handler) (entry request0)) =
      Raises e /\
    response (frame (attempt (serving empty_coroutine_handler)
                       (entry request0))) = VAwaitable (Returns VNone).
Proof.
  destruct (coroutine_returning_none_fails python38
              (serving empty_coroutine_handler) request0
              (fun _ => Returns (Some empty_coroutine_handler, [], [], "/"))
              empty_coroutine_handler [] [] "/"
              ltac:(constructor) eq_refl eq_refl eq_refl)
    as (e & Hcls & Hattempt & _).
  exists e. split; [exact Hcls|]. now rewrite Hattempt.
Defined.

(** X12: a response with which a pre-handler middleware cuts the run
    short is not exempt from the post-handler middleware: they are run on
    it, right after the pre-handler calls, and the callback receives what
    they give. *)
Theorem short_circuit_is_post_processed py self req write_callback
    stream_callback pre mw post v :
  request_middleware self = pre ++ mw :: post ->
  Forall (fun m => passes (rq_call m (assign_app (name self) req)) = true)
         pre ->
  resolved (rq_call mw (assign_app (name self) req)) = Returns v ->
  truthy v = true ->
  let fv := mkFrame (assign_app (name self) req) v false in
  let run := _run_response_middleware self v fv in
  (exists tail,
     trace (handle_request py self req write_callback stream_callback) =
     request_calls (pre ++ [mw]) ++ trace run ++ tail) /\
  (forall u, result run = Returns u ->
     handle_request py self req write_callback stream_callback =
       mkRun (request_calls (pre ++ [mw]) ++ trace run ++ [callback_for u])
             (mkFrame (assign_app (name self) req) u false)
             (callback_result write_callback stream_callback u)).
Proof.
  intros Hl Hpre Hv Ht fv run.
  pose proof (attempt_short_circuit self req pre mw post v Hl Hpre Hv Ht)
    as Hattempt.
  assert (Hguarded : guarded py self (entry req) =
            mkRun (request_calls (pre ++ [mw])) fv (Returns tt)).
  { now rewrite guarded_returns, Hattempt by now rewrite Hattempt. }
  pose proof (done_run py self req write_callback stream_callback) as Hrun.
  cbv zeta in Hrun. rewrite Hguarded in Hrun.
  cbn [result frame trace] in Hrun. specialize (Hrun eq_refl eq_refl).
  change (response fv) with v in Hrun.
  change (request fv) with (assign_app (name self) req) in Hrun.
  rewrite (truthy_is_not_None v Ht) in Hrun. fold run in Hrun.
  split.
  - rewrite Hrun. destruct (result run) as [u|e]; cbn [trace].
    + exists [callback_for u]. now rewrite <- app_assoc.
    + destruct (isinstance_CancelledError e); cbn [trace].
      * exists []. now rewrite app_nil_r.
      * exists [middleware_failure; callback_for v].
        now rewrite <- !app_assoc.
  - intros u Hu. rewrite Hrun, Hu. now rewrite <- app_assoc.
Qed.

Lemma short_circuit_is_post_processed_witness :
  handle_request python38
    (with_response_middleware [rs_replace]
       (with_request_middleware [rq_continue; rq_deny; rq_late]
          (serving hello_handler))) request0 returning returning =
  mkRun [CallRequestMiddleware 0; CallRequestMiddleware 1;
         CallResponseMiddleware 1 deny; CallWrite teapot]
        (mkFrame (assign_app "app" request0) teapot false) (Returns tt).
Proof.
  destruct (short_circuit_is_post_processed python38
              (with_response_middleware [rs_replace]
                 (with_request_middleware [rq_continue; rq_deny; rq_late]
                    (serving hello_handler))) request0 returning returning
              [rq_continue] rq_deny [rq_late] deny eq_refl
              ltac:(repeat constructor) eq_refl eq_refl) as [_ Hrun].
  rewrite (Hrun teapot eq_refl). reflexivity.
Defined.

Lemma cancelled_flag_drops_response_witness :
  response (frame (pipeline python37 (serving cancelled_handler)
                     (entry request0))) = VNone /\
  result (pipeline python37 (serving cancelled_handler) (entry request0)) =
    Raises cancellation /\
  cancelled (frame (pipeline python38 (serving hello_handler)
                      (entry request0))) = false.
Proof.
  destruct (cancelled_flag_drops_response python37 (serving cancelled_handler)
              request0) as [Hraised _].
  destruct (cancelled_flag_drops_response python38 (serving hello_handler)
              request0) as [_ Hdown].
  destruct (Hraised eq_refl) as [Hnone Hres].
  split; [exact Hnone|]. split; [exact Hres|]. exact (Hdown eq_refl).
Defined.

(** ** The order of the calls *)

Lemma run_handler_trace_shape h args kwargs f :
  trace (run_handler h args kwargs f) = [CallHandler (h_name h)] \/
  trace (run_handler h args kwargs f) =
    [CallHandler (h_name h); LogInfo "got response from function"].
Proof.
  unfold run_handler, call_handler, rebuild, bind, call. simpl.
  destruct (h_call h (request f) args kwargs) as [v|e]; simpl; [|now left].
  destruct v as [ | | | | |[a|e]]; simpl; try (now left); [|now right].
  destruct a; simpl; now right.
Qed.

Lemma dispatch_trace_shape self f : dispatch_shape (trace (dispatch self f)).
Proof.
  unfold dispatch_shape.
  destruct (router self) as [get|] eqn:Hr.
  - destruct (get (request f)) as [[[[[h|] args] kwargs] uri]|e] eqn:Hg.
    + rewrite (dispatch_found self get h args kwargs uri f Hr Hg).
      unfold prepend. cbn [trace].
      right; right. exists (h_name h).
      destruct (run_handler_trace_shape h args kwargs (routed self h uri f))
        as [-> | ->]; [now left|now right].
    + rewrite (dispatch_no_handler self get args kwargs uri f Hr Hg).
      right; now left.
    + unfold dispatch, router_get. rewrite Hr, bind_run.
      cbn [call result trace frame]. rewrite Hg. right; now left.
  - unfold dispatch, router_get. rewrite Hr, bind_run. now left.
Qed.

Lemma attempt_trace_shape self f :
  exists pre d,
    trace (attempt self f) = request_calls pre ++ d /\
    (exists rest, request_middleware self = pre ++ rest) /\
    dispatch_shape d.
Proof.
  unfold attempt. rewrite bind_run. cbn [set_request result trace frame].
  unfold prepend. cbn [trace]. rewrite bind_run.
  rewrite run_request_middleware_loop.
  match goal with
  | |- context [request_middleware_loop _ ?f1] =>
      destruct (request_middleware_loop_cases (request_middleware self) f1)
        as (pre & rest & Hl & Hpre & Hcases)
  end.
  destruct Hcases as [[-> Hrun]|(mw & post & -> & Hfalse & Hrun)];
    rewrite Hrun; cbn [result trace frame].
  - rewrite app_nil_r in Hl.
    exists pre, (trace (dispatch self
                   (mkFrame (assign_app (name self) (request f)) VNone
                            (cancelled f)))).
    split; [|split; [exists []; now rewrite app_nil_r|
                     apply dispatch_trace_shape]].
    unfold prepend. cbn [trace]. rewrite bind_run.
    cbn [set_response result trace frame]. unfold prepend. now cbn.
  - exists (pre ++ [mw]), [].
    split; [|split; [exists post; now rewrite Hl, <- app_assoc|now left]].
    unfold passes in Hfalse.
    destruct (resolved _) as [a|e]; [|now rewrite app_nil_r].
    apply negb_false_iff in Hfalse.
    unfold prepend. cbn [trace]. rewrite bind_run.
    cbn [set_response result trace frame]. rewrite Hfalse.
    unfold prepend. now cbn.
Qed.

Lemma guarded_trace_shape py self f :
  exists r,
    trace (guarded py self f) = trace (attempt self f) ++ r /\
    recovery_shape r.
Proof.
  destruct (result (attempt self f)) as [[]|e] eqn:Ha.
  { rewrite (guarded_returns _ _ _ Ha). exists [].
    split; [now rewrite app_nil_r|now left]. }
  destruct (isinstance_CancelledError e) eqn:Hc.
  { rewrite (guarded_cancels _ _ _ _ Ha Hc). exists []. cbn [trace].
    split; [now rewrite app_nil_r|now left]. }
  destruct (isinstance_Exception py e) eqn:He.
  - rewrite (guarded_recovers _ _ _ _ Ha Hc He).
    exists (trace (recover py self e (frame (attempt self f)))).
    split; [reflexivity|]. rewrite recover_run. cbv zeta.
    right. exists e.
    destruct (resolved _) as [v|e2]; [now left|].
    destruct (isinstance_Exception py e2); [|now left].
    unfold secondary_calls.
    destruct (isinstance_AsyncHTTPException py e2); cbn [trace];
      [right; now exists e2|now left].
  - rewrite (guarded_propagates _ _ _ _ Ha Hc He). exists [].
    split; [now rewrite app_nil_r|now left].
Qed.

Lemma finalizer_trace_shape self f :
  exists post v l,
    trace (finalizer self f) = response_calls post v ++ l /\
    (exists rest, response_middleware self = post ++ rest) /\
    (l = [] \/ l = [middleware_failure]).
Proof.
  destruct (is_not_None (response f)) eqn:Hr.
  - rewrite (finalizer_present _ _ Hr). cbv zeta.
    rewrite run_response_middleware_loop.
    destruct (response_middleware_loop_cases (response_middleware self)
                (response f) f) as (pre & rest & Hl & _ & Hcases).
    assert (Hcalls : exists post,
              trace (response_middleware_loop (response_middleware self)
                       (response f) f) =
                response_calls post (response f) /\
              exists rest', response_middleware self = post ++ rest').
    { destruct Hcases as [[-> Hrun]|(mw & post & -> & _ & Hrun)];
        rewrite Hrun; cbn [trace].
      - exists pre. split; [reflexivity|]. exists []. exact Hl.
      - exists (pre ++ [mw]). split; [reflexivity|].
        exists post. now rewrite Hl, <- app_assoc. }
    destruct Hcalls as (post & Htr & Hprefix).
    exists post, (response f).
    destruct (result (response_middleware_loop _ _ _)) as [r|e].
    + exists []. cbn [trace]. rewrite Htr, app_nil_r. auto.
    + destruct (isinstance_CancelledError e); cbn [trace]; rewrite Htr.
      * exists []. rewrite app_nil_r. auto.
      * exists [middleware_failure]. auto.
  - apply is_not_None_false in Hr. rewrite (finalizer_absent _ _ Hr).
    exists [], VNone, []. split; [reflexivity|].
    split; [now exists (response_middleware self)|now left].
Qed.

(** X13: the calls of every run come in the order of the phases, each
    phase at most once: pre-handler middleware, a leading part of the
    list in order; then at most one router lookup and one handler call;
    then at most one call of the error handler's mapping and one of its
    default; then post-handler middleware, a leading part of the list in
    order and all with the same response; then at most one log line for
    a failure among them; and last at most one callback. *)
Theorem calls_follow_the_phases py self req write_callback stream_callback :
  exists pre d r post v l c,
    trace (handle_request py self req write_callback stream_callback) =
      request_calls pre ++ d ++ r ++ response_calls post v ++ l ++ c /\
    (exists rest, request_middleware self = pre ++ rest) /\
    dispatch_shape d /\
    recovery_shape r /\
    (exists rest, response_middleware self = post ++ rest) /\
    (l = [] \/ l = [middleware_failure]) /\
    (c = [] \/ exists u, c = [callback_for u]).
Proof.
  destruct (attempt_trace_shape self (entry req))
    as (pre & d & Ha & Hpre & Hd).
  destruct (guarded_trace_shape py self (entry req)) as (r & Hg & Hr).
  destruct (finalizer_trace_shape self
              (frame (guarded py self (entry req))))
    as (post & v & l & Hfin & Hpost & Hl).
  exists pre, d, r, post, v, l.
  pose proof (handle_request_run py self req write_callback stream_callback)
    as Hrun. cbv zeta in Hrun. rewrite Hrun. clear Hrun.
  assert (Hshape : forall c,
            (trace (guarded py self (entry req)) ++
             trace (finalizer self (frame (guarded py self (entry req))))) ++ c
            = request_calls pre ++ d ++ r ++ response_calls post v ++ l ++ c).
  { intros c. rewrite Hg, Ha, Hfin. now rewrite <- !app_assoc. }
  destruct (result (finalizer _ _)) as [[]|e];
    [destruct (result (guarded _ _ _)) as [[]|e]|]; cbn [trace].
  - eexists. split; [apply Hshape|]. repeat split; eauto.
  - exists []. split; [now rewrite <- (Hshape []), app_nil_r|].
    repeat split; auto.
  - exists []. split; [now rewrite <- (Hshape []), app_nil_r|].
    repeat split; auto.
Qed.
